(** * Deadline database connections (aws-rfdk, lib/deadline/lib/database-connection.ts)

    A shallow embedding of [DatabaseConnection] and of its two
    specialisations, [DocDBDatabaseConnection] and
    [MongoDbInstanceDatabaseConnection], together with the properties of the
    generated boot scripts, of the diagnostics and of the edits made to the
    construct tree.

    The TypeScript methods mutate objects of the CDK (user data, construct
    nodes, annotations) and may throw.  They are embedded as computations in
    a state-and-exception monad over a store [World] that is keyed by object
    identity; a thrown [Error] keeps the store as it was at the [throw], as
    in JavaScript. *)

From Stdlib Require Import Ascii String.
From stdpp Require Import base strings gmap list pretty.

Local Open Scope string_scope.
Local Open Scope list_scope.

(** ** Text *)

(** The double-quote character (code 34) and a string in double quotes. *)
Definition dquote : string := String (ascii_of_nat 34) "".
Definition quoted (s : string) : string := dquote +:+ s +:+ dquote.

(** [Array.prototype.join]. *)
Fixpoint join (sep : string) (l : list string) : string :=
  match l with
  | [] => ""
  | [x] => x
  | x :: l' => x +:+ sep +:+ join sep l'
  end.

(** [sub] occurs in [s]. *)
Definition occurs_in (sub s : string) : Prop :=
  ∃ before after, s = before +:+ sub +:+ after.

(** [String.prototype.startsWith]. *)
Definition startsWith (s p : string) : bool := String.prefix p s.

(** [uuid.replace(/[-]/g, '')]: every hyphen is dropped. *)
Fixpoint remove_hyphens (s : string) : string :=
  match s with
  | EmptyString => EmptyString
  | String c s' =>
      if Ascii.eqb c "-"%char then remove_hyphens s'
      else String c (remove_hyphens s')
  end.

(** ** The store *)

(** Object identity: two references denote the same object iff they are equal. *)
Definition ref := nat.

(** [OperatingSystemType] of aws-cdk-lib/aws-ec2, a numeric enum. *)
Inductive OperatingSystemType := LINUX | WINDOWS | UNKNOWN.

Definition os_code (os : OperatingSystemType) : N :=
  match os with LINUX => 0 | WINDOWS => 1 | UNKNOWN => 2 end%N.

Global Instance OperatingSystemType_eq_dec : EqDecision OperatingSystemType.
Proof. solve_decision. Defined.

(** The classes that the code tests with [instanceof]. *)
Inductive ConstructClass :=
| DatabaseCluster | CfnDBCluster | CfnDBInstance
| MongoDbInstance | Volume | ScriptAsset | OtherConstruct.

Global Instance ConstructClass_eq_dec : EqDecision ConstructClass.
Proof. solve_decision. Defined.

(** Levels of [Annotations]: [addError] and [addWarning]. *)
Inductive Severity := ERROR | WARN.

Record Annotation := {
  ann_scope : ref;
  ann_level : Severity;
  ann_message : string;
}.

(** One entry of a host's [userData]. *)
Inductive Command :=
| Shell (line : string)
| RunScript (asset : ref) (args : list string).

Record World := {
  (** [scope.node.tryFindChild(id)] *)
  children : gmap (ref * string) ref;
  (** [scope.node.defaultChild] *)
  defaultChild : gmap ref ref;
  (** the class an object is an instance of *)
  classOf : gmap ref ConstructClass;
  (** [CfnDBCluster.engineVersion], an optional property *)
  engineVersion : gmap ref string;
  (** [CfnDBCluster.vpcSecurityGroupIds], an optional property *)
  vpcSecurityGroupIds : gmap ref (list string);
  (** [MongoDbInstance.mongoDataVolume] *)
  mongoDataVolume : gmap ref ref;
  (** [child.node.addDependency(dep)]: the pairs (child, dep) *)
  dependencies : gset (ref * ref);
  (** calls of [Annotations.of(scope).addError / addWarning], oldest first *)
  annotations : list Annotation;
  (** [host.userData], oldest command first *)
  userData : gmap ref (list Command);
  (** calls of [secret.grantRead(grantee)]: (secret, grantee), oldest first *)
  secretGrants : list (ref * ref);
  (** the identity the next [new] gives *)
  next_ref : ref;
}.

Definition with_children (f : gmap (ref * string) ref → gmap (ref * string) ref)
    (w : World) : World :=
  {| children := f (children w); defaultChild := defaultChild w;
     classOf := classOf w; engineVersion := engineVersion w;
     vpcSecurityGroupIds := vpcSecurityGroupIds w;
     mongoDataVolume := mongoDataVolume w; dependencies := dependencies w;
     annotations := annotations w; userData := userData w;
     secretGrants := secretGrants w; next_ref := next_ref w |}.

Definition with_classOf (f : gmap ref ConstructClass → gmap ref ConstructClass)
    (w : World) : World :=
  {| children := children w; defaultChild := defaultChild w;
     classOf := f (classOf w); engineVersion := engineVersion w;
     vpcSecurityGroupIds := vpcSecurityGroupIds w;
     mongoDataVolume := mongoDataVolume w; dependencies := dependencies w;
     annotations := annotations w; userData := userData w;
     secretGrants := secretGrants w; next_ref := next_ref w |}.

Definition with_vpcSecurityGroupIds
    (f : gmap ref (list string) → gmap ref (list string)) (w : World) : World :=
  {| children := children w; defaultChild := defaultChild w;
     classOf := classOf w; engineVersion := engineVersion w;
     vpcSecurityGroupIds := f (vpcSecurityGroupIds w);
     mongoDataVolume := mongoDataVolume w; dependencies := dependencies w;
     annotations := annotations w; userData := userData w;
     secretGrants := secretGrants w; next_ref := next_ref w |}.

Definition with_dependencies (f : gset (ref * ref) → gset (ref * ref))
    (w : World) : World :=
  {| children := children w; defaultChild := defaultChild w;
     classOf := classOf w; engineVersion := engineVersion w;
     vpcSecurityGroupIds := vpcSecurityGroupIds w;
     mongoDataVolume := mongoDataVolume w; dependencies := f (dependencies w);
     annotations := annotations w; userData := userData w;
     secretGrants := secretGrants w; next_ref := next_ref w |}.

Definition with_annotations (f : list Annotation → list Annotation)
    (w : World) : World :=
  {| children := children w; defaultChild := defaultChild w;
     classOf := classOf w; engineVersion := engineVersion w;
     vpcSecurityGroupIds := vpcSecurityGroupIds w;
     mongoDataVolume := mongoDataVolume w; dependencies := dependencies w;
     annotations := f (annotations w); userData := userData w;
     secretGrants := secretGrants w; next_ref := next_ref w |}.

Definition with_userData (f : gmap ref (list Command) → gmap ref (list Command))
    (w : World) : World :=
  {| children := children w; defaultChild := defaultChild w;
     classOf := classOf w; engineVersion := engineVersion w;
     vpcSecurityGroupIds := vpcSecurityGroupIds w;
     mongoDataVolume := mongoDataVolume w; dependencies := dependencies w;
     annotations := annotations w; userData := f (userData w);
     secretGrants := secretGrants w; next_ref := next_ref w |}.

Definition with_secretGrants (f : list (ref * ref) → list (ref * ref))
    (w : World) : World :=
  {| children := children w; defaultChild := defaultChild w;
     classOf := classOf w; engineVersion := engineVersion w;
     vpcSecurityGroupIds := vpcSecurityGroupIds w;
     mongoDataVolume := mongoDataVolume w; dependencies := dependencies w;
     annotations := annotations w; userData := userData w;
     secretGrants := f (secretGrants w); next_ref := next_ref w |}.

Definition with_next_ref (f : ref → ref) (w : World) : World :=
  {| children := children w; defaultChild := defaultChild w;
     classOf := classOf w; engineVersion := engineVersion w;
     vpcSecurityGroupIds := vpcSecurityGroupIds w;
     mongoDataVolume := mongoDataVolume w; dependencies := dependencies w;
     annotations := annotations w; userData := userData w;
     secretGrants := secretGrants w; next_ref := f (next_ref w) |}.

(** ** Computations that read and write the store and may throw *)

(** A JavaScript [Error] with its message. *)
Record Error := { message : string }.

Inductive Outcome (A : Type) :=
| Returned (a : A)
| Thrown (e : Error).
Arguments Returned {A} a.
Arguments Thrown {A} e.

Definition M (A : Type) : Type := World → Outcome A * World.

Global Instance M_ret : MRet M := fun A (a : A) w => (Returned a, w).

Global Instance M_bind : MBind M := fun A B (k : A → M B) (m : M A) w =>
  match m w with
  | (Returned a, w') => k a w'
  | (Thrown e, w') => (Thrown e, w')
  end.

Definition throw {A} (msg : string) : M A :=
  fun w => (Thrown {| message := msg |}, w).

Definition gets {A} (f : World → A) : M A := fun w => (Returned (f w), w).

Definition modify (f : World → World) : M unit := fun w => (Returned tt, f w).

Definition throws {A} (m : M A) (w : World) : Prop :=
  ∃ e, (m w).1 = Thrown e.

Definition returns {A} (m : M A) (w : World) : Prop :=
  ∃ a, (m w).1 = Returned a.

(** The store in which [m], started in [w], ends. *)
Definition final {A} (m : M A) (w : World) : World := (m w).2.

(** ** The CDK operations the connections call *)

Definition tryFindChild (scope : ref) (id : string) : M (option ref) :=
  gets (fun w => children w !! (scope, id)).

Definition getDefaultChild (scope : ref) : M (option ref) :=
  gets (fun w => defaultChild w !! scope).

(** [x instanceof C]; [undefined instanceof C] is false. *)
Definition instanceof (x : option ref) (C : ConstructClass) : M bool :=
  gets (fun w => bool_decide (x ≫= (fun r => classOf w !! r) = Some C)).

Definition addDependency (child dep : ref) : M unit :=
  modify (with_dependencies (fun d => {[ (child, dep) ]} ∪ d)).

Definition addError (scope : ref) (msg : string) : M unit :=
  modify (with_annotations (fun l =>
    l ++ [ {| ann_scope := scope; ann_level := ERROR; ann_message := msg |} ])).

Definition addWarning (scope : ref) (msg : string) : M unit :=
  modify (with_annotations (fun l =>
    l ++ [ {| ann_scope := scope; ann_level := WARN; ann_message := msg |} ])).

(** The commands that the user data of [host] holds. *)
Definition commandsOf (w : World) (host : ref) : list Command :=
  default [] (userData w !! host).

(** [host.userData.addCommands(...lines)] *)
Definition addCommands (host : ref) (lines : list string) : M unit :=
  modify (fun w =>
    with_userData <[ host := commandsOf w host ++ (Shell <$> lines) ]> w).

(** ** What the connections are given *)

(** [ISecret]; [secret_region] is [Stack.of(secret).region]. *)
Record ISecret := {
  secret_ref : ref;
  secretArn : string;
  secret_region : string;
}.

(** [IHost]; [host_stack] is [Stack.of(host)]. *)
Record IHost := {
  host_ref : ref;
  osType : OperatingSystemType;
  host_stack : ref;
}.

(** [ISecurityGroup]; [sg_node_id] is [sg.node.id]. *)
Record ISecurityGroup := {
  sg_ref : ref;
  securityGroupId : string;
  sg_node_id : string;
}.

Record Endpoint := {
  hostname : string;
  portAsString : string;
}.

(** [IDatabaseCluster]; [cluster_node_id] is [database.node.id]. *)
Record IDatabaseCluster := {
  cluster_ref : ref;
  cluster_node_id : string;
  clusterEndpoint : Endpoint;
}.

Record IX509CertificatePkcs12 := {
  cert : ISecret;
  passphrase : ISecret;
}.

(** [IMongoDb]; the template literals print the number [port] in decimal. *)
Record IMongoDb := {
  mongo_ref : ref;
  fullHostname : string;
  port : N;
}.

(** [secret.grantRead(grantee)] *)
Definition secret_grantRead (secret : ISecret) (grantee : ref) : M unit :=
  modify (with_secretGrants (fun l => l ++ [(secret_ref secret, grantee)])).

(** Two lines that all four shell functions share: the helper that reads one
    field of a JSON object, and the command that restores [set -x]. *)
Definition getJsonVal_line : string :=
  "getJsonVal(){ python3 -c 'import json,sys;obj=json.load(sys.stdin);print(obj["
  +:+ quoted "'$1'" +:+ "])'; }".

Definition restore_x_line : string :=
  "if [[ $SET_X_IS_SET =~ x ]]; then set -x; else set +x; fi".

(** ** [DocDBDatabaseConnection] *)

Module DocDB.

Record DocDBConnectionOptions := {
  database : IDatabaseCluster;
  login : ISecret;
}.

Record DocDBDatabaseConnection := {
  props : DocDBConnectionOptions;
  containerEnvironment : gmap string string;
  databaseConstruct : option ref;
}.

(** [a || b] on the values that [?.startsWith] gives: [undefined] is falsy. *)
Definition js_or (a b : option bool) : option bool :=
  match a with
  | Some true => a
  | _ => b
  end.

Definition isCompatibleDocDBVersion (props : DocDBConnectionOptions) : M bool :=
  dc ← getDefaultChild (cluster_ref (database props));
  match dc with
  | Some cluster =>
      v ← gets (fun w => engineVersion w !! cluster);
      mret (default false
        (js_or (js_or ((fun s => startsWith s "3.6") <$> v)
                      ((fun s => startsWith s "4.0") <$> v))
               ((fun s => startsWith s "5.0") <$> v)))
  | None => mret true
  end.

Definition new (props : DocDBConnectionOptions) : M DocDBDatabaseConnection :=
  compatible ← isCompatibleDocDBVersion props;
  (if negb compatible : bool
   then addError (cluster_ref (database props))
     "engineVersion must be one of 3.6.0, 4.0.0 or 5.0.0 to be compatible with Deadline"
   else mret tt);;
  isCluster ← instanceof (Some (cluster_ref (database props))) DatabaseCluster;
  mret {| props := props;
          containerEnvironment := {[ "DB_CREDENTIALS_URI" := secretArn (login props) ]};
          databaseConstruct :=
            if isCluster : bool then Some (cluster_ref (database props)) else None |}.

Definition secret_string_line (props : DocDBConnectionOptions) : string :=
  "export SECRET_STRING=`aws secretsmanager get-secret-value --secret-id "
  +:+ secretArn (login props) +:+ " --region " +:+ secret_region (login props)
  +:+ " | getJsonVal 'SecretString'`".

Definition installer_db_args_line (props : DocDBConnectionOptions) : string :=
  ("INSTALLER_DB_ARGS=( [" +:+ quoted "--dbuser" +:+ "]=$DB_USERNAME ["
   +:+ quoted "--dbpassword" +:+ "]=$DB_PASSWORD [" +:+ quoted "--dbhost" +:+ "]="
   +:+ hostname (clusterEndpoint (database props)))
  +:+ (" [" +:+ quoted "--dbport" +:+ "]="
   +:+ portAsString (clusterEndpoint (database props))
   +:+ " [" +:+ quoted "--dbtype" +:+ "]=DocumentDB )").

(** The arguments of [host.userData.addCommands] in [addInstallerDBArgs]. *)
Definition configure_database_installation_args
    (props : DocDBConnectionOptions) : list string :=
  [ "configure_database_installation_args(){";
    getJsonVal_line;
    "SET_X_IS_SET=$-";
    "{ set +x; } 2>/dev/null";
    secret_string_line props;
    "DB_USERNAME=`printenv SECRET_STRING | getJsonVal 'username'`";
    "DB_PASSWORD=`printenv SECRET_STRING | getJsonVal 'password'`";
    "unset SECRET_STRING";
    installer_db_args_line props;
    "unset DB_USERNAME";
    "unset DB_PASSWORD";
    restore_x_line;
    "}";
    "export -f configure_database_installation_args" ].

Definition addInstallerDBArgs (self : DocDBDatabaseConnection) (host : IHost) : M unit :=
  if bool_decide (osType host ≠ LINUX)
  then throw "Can only install Deadline from a Linux instance."
  else addCommands (host_ref host) (configure_database_installation_args (props self)).

(** The arguments of [host.userData.addCommands] in [addConnectionDBArgs]. *)
Definition configure_deadline_database (props : DocDBConnectionOptions) : list string :=
  [ "configure_deadline_database(){";
    getJsonVal_line;
    "SET_X_IS_SET=$-";
    "{ set +x; } 2>/dev/null";
    secret_string_line props;
    "DB_USERNAME=`printenv SECRET_STRING | getJsonVal 'username'`";
    "DB_PASSWORD=`printenv SECRET_STRING | getJsonVal 'password'`";
    "unset SECRET_STRING";
    "sudo -u ec2-user " +:+ quoted "${deadlinecommand}"
      +:+ " -StoreDatabasecredentials " +:+ quoted "${DB_USERNAME}"
      +:+ " " +:+ quoted "${DB_PASSWORD}";
    "unset DB_USERNAME";
    "unset DB_PASSWORD";
    restore_x_line;
    "}";
    "export -f configure_deadline_database" ].

Definition addConnectionDBArgs (self : DocDBDatabaseConnection) (host : IHost) : M unit :=
  if bool_decide (osType host ≠ LINUX)
  then throw "Connecting to the Deadline Database is currently only supported for Linux."
  else addCommands (host_ref host) (configure_deadline_database (props self)).

Definition grantRead (self : DocDBDatabaseConnection) (grantee : ref) : M unit :=
  secret_grantRead (login (props self)) grantee.

Definition addChildDependency (self : DocDBDatabaseConnection) (child : ref) : M unit :=
  docdbInstance ← tryFindChild (cluster_ref (database (props self))) "Instance1";
  match docdbInstance with
  | Some instance => addDependency child instance
  | None =>
      dc ← getDefaultChild (cluster_ref (database (props self)));
      if bool_decide (is_Some dc)
      then throw (A := unit) ("The internal implementation of the AWS CDK's DocumentDB cluster construct may have changed."
                  +:+ " Please update to a newer RFDK for an updated implementation, or file a ticket if this is the latest release.")
      else mret tt
  end.

(** [cfnCluster.vpcSecurityGroupIds = ids] when the property is undefined,
    [cfnCluster.vpcSecurityGroupIds.push(...ids)] otherwise. *)
Definition attachSecurityGroupIds (cfnCluster : ref) (ids : list string) : M unit :=
  modify (fun w =>
    match vpcSecurityGroupIds w !! cfnCluster with
    | None => with_vpcSecurityGroupIds <[ cfnCluster := ids ]> w
    | Some old => with_vpcSecurityGroupIds <[ cfnCluster := old ++ ids ]> w
    end).

Definition addSecurityGroup (self : DocDBDatabaseConnection)
    (securityGroups : list ISecurityGroup) : M unit :=
  let db := database (props self) in
  isCluster ← instanceof (Some (cluster_ref db)) DatabaseCluster;
  '(added, errorReasons) ←
    (if isCluster : bool
     then
       resource ← tryFindChild (cluster_ref db) "Resource";
       isCfn ← instanceof resource CfnDBCluster;
       (* [isCfn] is false when [resource] is undefined *)
       match resource, isCfn with
       | Some cfnCluster, true =>
           attachSecurityGroupIds cfnCluster (securityGroupId <$> securityGroups);;
           mret (true, [])
       | _, _ =>
           mret (false,
             ["The internal implementation of AWS CDK's DocumentDB cluster construct has changed."])
       end
     else
       mret (false,
         ["The " +:+ quoted "database"
          +:+ " property passed to this class is not an instance of AWS CDK's DocumentDB cluster construct."]));
  if negb added
  then addWarning (cluster_ref db)
         (("Failed to add the following security groups to " +:+ cluster_node_id db
           +:+ ": " +:+ join ", " (sg_node_id <$> securityGroups) +:+ ". ")
          +:+ join " " errorReasons)
  else mret tt.

End DocDB.

(** ** [ScriptAsset] *)

(** Modelled from the spec: [ScriptAsset] (lib/core) is not among the
    sources.  [fromPathConvention(scope, id, ...)] constructs a new script
    resource, which the construct tree registers as the child [id] of
    [scope]. *)
Definition ScriptAsset_fromPathConvention (scope : ref) (id : string) : M ref :=
  r ← gets next_ref;
  modify (with_next_ref S);;
  modify (with_classOf <[ r := ScriptAsset ]>);;
  modify (with_children <[ (scope, id) := r ]>);;
  mret r.

(** Modelled from the spec: [executeOn({host, args})] adds to the host's user
    data the download of the script and its run with [args]; both are kept as
    the single entry [RunScript]. *)
Definition ScriptAsset_executeOn (script : ref) (host : IHost) (args : list string) : M unit :=
  modify (fun w =>
    with_userData <[ host_ref host := commandsOf w (host_ref host) ++ [RunScript script args] ]> w).

(** ** [MongoDbInstanceDatabaseConnection] *)

Module MongoDb.

Record MongoDbInstanceConnectionOptions := {
  database : IMongoDb;
  clientCertificate : IX509CertificatePkcs12;
}.

Record MongoDbInstanceDatabaseConnection := {
  props : MongoDbInstanceConnectionOptions;
  containerEnvironment : gmap string string;
  databaseConstruct : option ref;
}.

Definition DB_CERT_LOCATION : string := "/opt/Thinkbox/certs/mongo_client.pfx".

Definition new (props : MongoDbInstanceConnectionOptions)
    : M MongoDbInstanceDatabaseConnection :=
  isInstance ← instanceof (Some (mongo_ref (database props))) MongoDbInstance;
  construct ←
    (if isInstance : bool
     then
       volume ← gets (fun w => mongoDataVolume w !! mongo_ref (database props));
       isVolume ← instanceof volume Volume;
       mret (if isVolume : bool then volume else None)
     else mret None);
  mret {| props := props;
          containerEnvironment :=
            {[ "DB_TLS_CLIENT_CERT_URI" := secretArn (cert (clientCertificate props));
               "DB_TLS_CLIENT_CERT_PASSWORD_URI" :=
                 secretArn (passphrase (clientCertificate props)) ]};
          databaseConstruct := construct |}.

(** ['GetSecretToFile' + host.osType + uuid.replace(/[-]/g, '')] *)
Definition uniqueId (os : OperatingSystemType) : string :=
  "GetSecretToFile" +:+ pretty (os_code os)
  +:+ remove_hyphens "e8125dd2-ab2c-4861-8ee4-998c26b30ee0".

Definition downloadCertificate (self : MongoDbInstanceDatabaseConnection)
    (host : IHost) : M unit :=
  let stack := host_stack host in
  found ← tryFindChild stack (uniqueId (osType host));
  getSecretsScript ←
    match found with
    | Some script => mret script
    | None => ScriptAsset_fromPathConvention stack (uniqueId (osType host))
    end;
  ScriptAsset_executeOn getSecretsScript host
    [ secretArn (cert (clientCertificate (props self))); DB_CERT_LOCATION ].

(** [$(aws secretsmanager get-secret-value ... | getJsonVal 'SecretString')] *)
Definition cert_password_substitution (certPwSecret : ISecret) : string :=
  "$(aws secretsmanager get-secret-value --secret-id " +:+ secretArn certPwSecret
  +:+ " --region " +:+ secret_region certPwSecret
  +:+ " | getJsonVal 'SecretString')".

Definition installer_db_args_line (props : MongoDbInstanceConnectionOptions) : string :=
  ("INSTALLER_DB_ARGS=( [" +:+ quoted "--dbssl" +:+ "]=true [" +:+ quoted "--dbauth"
   +:+ "]=true [" +:+ quoted "--dbsslauth" +:+ "]=true ")
  +:+ ("[" +:+ quoted "--dbhost" +:+ "]=" +:+ quoted (fullHostname (database props))
   +:+ " [" +:+ quoted "--dbport" +:+ "]=" +:+ pretty (port (database props)) +:+ " ")
  +:+ ("[" +:+ quoted "--dbclientcert" +:+ "]=" +:+ quoted DB_CERT_LOCATION
   +:+ " [" +:+ quoted "--dbcertpass" +:+ "]=$CERT_PASSWORD )").

(** The arguments of [host.userData.addCommands] in [addInstallerDBArgs]. *)
Definition configure_database_installation_args
    (props : MongoDbInstanceConnectionOptions) : list string :=
  let certPwSecret := passphrase (clientCertificate props) in
  [ "configure_database_installation_args(){";
    getJsonVal_line;
    "SET_X_IS_SET=$-";
    "{ set +x; } 2>/dev/null";
    "CERT_PASSWORD=" +:+ cert_password_substitution certPwSecret;
    installer_db_args_line props;
    "unset CERT_PASSWORD";
    restore_x_line;
    "}";
    "export -f configure_database_installation_args" ].

Definition addInstallerDBArgs (self : MongoDbInstanceDatabaseConnection)
    (host : IHost) : M unit :=
  if bool_decide (osType host ≠ LINUX)
  then throw "Can only install Deadline from a Linux instance."
  else
    downloadCertificate self host;;
    addCommands (host_ref host) (configure_database_installation_args (props self)).

(** The arguments of [host.userData.addCommands] in [addConnectionDBArgs]. *)
Definition configure_deadline_database
    (props : MongoDbInstanceConnectionOptions) : list string :=
  let certPwSecret := passphrase (clientCertificate props) in
  [ "configure_deadline_database(){";
    getJsonVal_line;
    "SET_X_IS_SET=$-";
    "{ set +x; } 2>/dev/null";
    "export DB_CERT_FILE=" +:+ quoted DB_CERT_LOCATION;
    "export DB_CERT_PASSWORD=" +:+ cert_password_substitution certPwSecret;
    restore_x_line;
    "}";
    "export -f configure_deadline_database" ].

Definition addConnectionDBArgs (self : MongoDbInstanceDatabaseConnection)
    (host : IHost) : M unit :=
  if bool_decide (osType host ≠ LINUX)
  then throw "Connecting to the Deadline Database is currently only supported for Linux."
  else
    downloadCertificate self host;;
    addCommands (host_ref host) (configure_deadline_database (props self)).

Definition grantRead (self : MongoDbInstanceDatabaseConnection) (grantee : ref) : M unit :=
  secret_grantRead (cert (clientCertificate (props self))) grantee;;
  secret_grantRead (passphrase (clientCertificate (props self))) grantee.

End MongoDb.

(** ** [DatabaseConnection]: the contract and its two factories *)

Module DatabaseConnection.

Inductive DatabaseConnection :=
| DocDBDatabaseConnection (c : DocDB.DocDBDatabaseConnection)
| MongoDbInstanceDatabaseConnection (c : MongoDb.MongoDbInstanceDatabaseConnection).

Definition forDocDB (options : DocDB.DocDBConnectionOptions) : M DatabaseConnection :=
  c ← DocDB.new options; mret (DocDBDatabaseConnection c).

Definition forMongoDbInstance (options : MongoDb.MongoDbInstanceConnectionOptions)
    : M DatabaseConnection :=
  c ← MongoDb.new options; mret (MongoDbInstanceDatabaseConnection c).

Definition databaseConstruct (self : DatabaseConnection) : option ref :=
  match self with
  | DocDBDatabaseConnection c => DocDB.databaseConstruct c
  | MongoDbInstanceDatabaseConnection c => MongoDb.databaseConstruct c
  end.

Definition addInstallerDBArgs (self : DatabaseConnection) (host : IHost) : M unit :=
  match self with
  | DocDBDatabaseConnection c => DocDB.addInstallerDBArgs c host
  | MongoDbInstanceDatabaseConnection c => MongoDb.addInstallerDBArgs c host
  end.

Definition addConnectionDBArgs (self : DatabaseConnection) (host : IHost) : M unit :=
  match self with
  | DocDBDatabaseConnection c => DocDB.addConnectionDBArgs c host
  | MongoDbInstanceDatabaseConnection c => MongoDb.addConnectionDBArgs c host
  end.

Definition grantRead (self : DatabaseConnection) (grantee : ref) : M unit :=
  match self with
  | DocDBDatabaseConnection c => DocDB.grantRead c grantee
  | MongoDbInstanceDatabaseConnection c => MongoDb.grantRead c grantee
  end.

End DatabaseConnection.

(** ** Callers *)

(** The two operations that write a shell function into a host's user data. *)
Inductive ScriptOperation := InstallerDBArgs | ConnectionDBArgs.

Definition generate (op : ScriptOperation)
    (self : DatabaseConnection.DatabaseConnection) (host : IHost) : M unit :=
  match op with
  | InstallerDBArgs => DatabaseConnection.addInstallerDBArgs self host
  | ConnectionDBArgs => DatabaseConnection.addConnectionDBArgs self host
  end.

(** The shell function that an operation defines and the lines it is made of. *)
Definition function_name (op : ScriptOperation) : string :=
  match op with
  | InstallerDBArgs => "configure_database_installation_args"
  | ConnectionDBArgs => "configure_deadline_database"
  end.

Definition script_of (op : ScriptOperation)
    (self : DatabaseConnection.DatabaseConnection) : list string :=
  match self, op with
  | DatabaseConnection.DocDBDatabaseConnection c, InstallerDBArgs =>
      DocDB.configure_database_installation_args (DocDB.props c)
  | DatabaseConnection.DocDBDatabaseConnection c, ConnectionDBArgs =>
      DocDB.configure_deadline_database (DocDB.props c)
  | DatabaseConnection.MongoDbInstanceDatabaseConnection c, InstallerDBArgs =>
      MongoDb.configure_database_installation_args (MongoDb.props c)
  | DatabaseConnection.MongoDbInstanceDatabaseConnection c, ConnectionDBArgs =>
      MongoDb.configure_deadline_database (MongoDb.props c)
  end.

(** A configuration run that calls script-generation operations of MongoDB
    connections one after the other; an exception ends the run. *)
Record Invocation := {
  inv_connection : MongoDb.MongoDbInstanceDatabaseConnection;
  inv_operation : ScriptOperation;
  inv_host : IHost;
}.

Definition invoke (i : Invocation) : M unit :=
  generate (inv_operation i)
    (DatabaseConnection.MongoDbInstanceDatabaseConnection (inv_connection i)) (inv_host i).

Fixpoint invoke_all (calls : list Invocation) : M unit :=
  match calls with
  | [] => mret tt
  | i :: rest => invoke i;; invoke_all rest
  end.

(** What a call that returns adds to the user data of its host, when [script]
    is the certificate script that it runs: the run of the script, then the
    lines of the shell function. *)
Definition emitted (script : ref) (i : Invocation) : list Command :=
  RunScript script
    [ secretArn (cert (MongoDb.clientCertificate (MongoDb.props (inv_connection i))));
      MongoDb.DB_CERT_LOCATION ]
  :: (Shell <$> script_of (inv_operation i)
        (DatabaseConnection.MongoDbInstanceDatabaseConnection (inv_connection i))).

Definition emitted_on (host : ref) (script : ref) (calls : list Invocation) : list Command :=
  concat ((fun i => if decide (host_ref (inv_host i) = host)
                    then emitted script i else []) <$> calls).

(** ** Reading the generated shell text *)

(** The shell text of a user data: the lines given to [addCommands]. *)
Definition shell_lines (commands : list Command) : list string :=
  omap (fun c => match c with Shell line => Some line | RunScript _ _ => None end) commands.


Definition is_name_char (c : ascii) : bool :=
  let n := nat_of_ascii c in
  ((65 <=? n) && (n <=? 90) || (97 <=? n) && (n <=? 122)
   || (48 <=? n) && (n <=? 57) || (n =? 95))%nat.

(** [strip_prefix p s] is what follows [p] in [s], when [s] starts with [p]. *)
Fixpoint strip_prefix (p s : string) : option string :=
  match p, s with
  | EmptyString, _ => Some s
  | String a p', String b s' => if Ascii.eqb a b then strip_prefix p' s' else None
  | String _ _, EmptyString => None
  end.

(** [NAME=value] is split into [NAME] and [value]. *)
Fixpoint split_assignment (s : string) : option (string * string) :=
  match s with
  | EmptyString => None
  | String c s' =>
      if Ascii.eqb c "="%char then Some (EmptyString, s')
      else if is_name_char c then
        match split_assignment s' with
        | Some (name, value) => Some (String c name, value)
        | None => None
        end
      else None
  end.

(** The variable that a line assigns from a command substitution
    ([`...`] or [$(...)]), with or without [export]. *)
Definition extracted_variable (line : string) : option string :=
  let statement := default line (strip_prefix "export " line) in
  match split_assignment statement with
  | Some (String c name, value) =>
      if startsWith value "`" || startsWith value "$(" then Some (String c name) else None
  | _ => None
  end.

(** Every variable that a line extracts is unset by a later line. *)
Fixpoint unsets_what_it_extracts (body : list string) : bool :=
  match body with
  | [] => true
  | line :: rest =>
      match extracted_variable line with
      | Some v => existsb (String.eqb ("unset " +:+ v)) rest
      | None => true
      end && unsets_what_it_extracts rest
  end.

(** The lines between [name(){] and the closing [}] that [export -f name] follows. *)
Definition function_body (name : string) (script : list string) : option (list string) :=
  match script with
  | header :: rest =>
      match rev rest with
      | exported :: closing :: body_rev =>
          if String.eqb header (name +:+ "(){") && String.eqb closing "}"
             && String.eqb exported ("export -f " +:+ name)
          then Some (rev body_rev) else None
      | _ => None
      end
  | [] => None
  end.

(** Tracing is captured and switched off before anything is extracted. *)
Definition suppresses_tracing_first (body : list string) : bool :=
  match body with
  | helper :: capture :: off :: _ =>
      String.eqb helper getJsonVal_line && String.eqb capture "SET_X_IS_SET=$-"
      && String.eqb off "{ set +x; } 2>/dev/null"
  | _ => false
  end.

(** Tracing is restored by the last command of the body. *)
Definition restores_tracing_last (body : list string) : bool :=
  match last body with
  | Some line => String.eqb line restore_x_line
  | None => false
  end.

(** The discipline of the secure scripts: the extracted variables are unset
    before the last command, which restores tracing. *)
Definition secure_script (name : string) (script : list string) : bool :=
  match function_body name script with
  | Some body =>
      suppresses_tracing_first body && unsets_what_it_extracts body
      && restores_tracing_last body
  | None => false
  end.

(** The variables that the lines of a script extract, and those it unsets. *)
Definition extracted_variables (script : list string) : list string :=
  omap extracted_variable script.

Definition unset_variables (script : list string) : list string :=
  omap (strip_prefix "unset ") script.

(** The body ends with the line that uses the [credentials], passed as [$v]
    or [${v}], then their unsets, then the command that restores tracing; the
    credentials were extracted before that. *)
Definition unsets_after_use (body credentials : list string) : Prop :=
  ∃ front handoff,
    body = front ++ handoff :: (String.append "unset " <$> credentials) ++ [restore_x_line] ∧
    ∀ v, v ∈ credentials →
      v ∈ extracted_variables front ∧
      (occurs_in ("$" +:+ v) handoff ∨ occurs_in ("${" +:+ v +:+ "}") handoff).

(** ** The installer arguments as an associative array *)

(** [name=( ["k1"]=v1 ["k2"]=v2 ... )], the text of a bash associative array. *)
Definition array_entry (kv : string * string) : string :=
  "[" +:+ quoted kv.1 +:+ "]=" +:+ kv.2.

Definition bash_array (name : string) (entries : list (string * string)) : string :=
  name +:+ "=( " +:+ join " " (array_entry <$> entries) +:+ " )".

(** Reading the subscripts back from the text of a compound assignment, the
    way the shell splits it: words end at a space outside double quotes, a
    word [[subscript]=value] gives its subscript, and double quotes are
    removed from a subscript. *)
Inductive ReadState :=
| Between
| Subscript (key : string)
| Value (in_quotes : bool).

Definition is_dquote (c : ascii) : bool := Ascii.eqb c (ascii_of_nat 34).

Definition read_char (st : ReadState) (c : ascii) : ReadState * list string :=
  match st with
  | Between =>
      if Ascii.eqb c " "%char then (Between, [])
      else if Ascii.eqb c "["%char then (Subscript "", [])
      else (Value (is_dquote c), [])
  | Subscript key =>
      if Ascii.eqb c "]"%char then (Value false, [key])
      else if is_dquote c then (Subscript key, [])
      else (Subscript (key +:+ String c ""), [])
  | Value in_quotes =>
      if is_dquote c then (Value (negb in_quotes), [])
      else if Ascii.eqb c " "%char && negb in_quotes then (Between, [])
      else (Value in_quotes, [])
  end.

Fixpoint read_words (st : ReadState) (s : string) : list string * ReadState :=
  match s with
  | EmptyString => ([], st)
  | String c s' =>
      let '(st1, found) := read_char st c in
      let '(rest, st2) := read_words st1 s' in
      (found ++ rest, st2)
  end.

Definition array_flags (line : string) : list string :=
  (read_words (Value false) line).1.

(** No double quote in [s]; no double quote and no space in [s]. *)
Fixpoint no_dquote (s : string) : bool :=
  match s with
  | EmptyString => true
  | String c s' => negb (is_dquote c) && no_dquote s'
  end.

Fixpoint plain_word (s : string) : bool :=
  match s with
  | EmptyString => true
  | String c s' => negb (is_dquote c) && negb (Ascii.eqb c " "%char) && plain_word s'
  end.

(** ** A small application *)

(** A cluster (object 1) with its [CfnDBCluster] (object 2, the child
    Resource and default child) and its first instance (object 3), a MongoDB
    instance (object 4) with its data volume (object 5), a stack (object 0),
    two consumers (objects 6 and 7), a grantee (object 8), three secrets
    (objects 10 to 12) and hosts (objects 20 to 22). *)
Definition login_secret : ISecret :=
  {| secret_ref := 10;
     secretArn := "arn:aws:secretsmanager:us-west-2:111122223333:secret:login";
     secret_region := "us-west-2" |}.

Definition cert_secret : ISecret :=
  {| secret_ref := 11;
     secretArn := "arn:aws:secretsmanager:us-west-2:111122223333:secret:cert";
     secret_region := "us-west-2" |}.

Definition passphrase_secret : ISecret :=
  {| secret_ref := 12;
     secretArn := "arn:aws:secretsmanager:us-west-2:111122223333:secret:pass";
     secret_region := "us-west-2" |}.

Definition docdb_options : DocDB.DocDBConnectionOptions :=
  {| DocDB.database :=
       {| cluster_ref := 1; cluster_node_id := "DocDB";
          clusterEndpoint := {| hostname := "docdb.cluster.example.com";
                                portAsString := "27017" |} |};
     DocDB.login := login_secret |}.

Definition docdb_connection : DocDB.DocDBDatabaseConnection :=
  {| DocDB.props := docdb_options;
     DocDB.containerEnvironment := {[ "DB_CREDENTIALS_URI" := secretArn login_secret ]};
     DocDB.databaseConstruct := Some 1 |}.

Definition mongo_options : MongoDb.MongoDbInstanceConnectionOptions :=
  {| MongoDb.database :=
       {| mongo_ref := 4; fullHostname := "mongo.renderfarm.local"; port := 27017 |};
     MongoDb.clientCertificate :=
       {| cert := cert_secret; passphrase := passphrase_secret |} |}.

Definition mongo_connection : MongoDb.MongoDbInstanceDatabaseConnection :=
  {| MongoDb.props := mongo_options;
     MongoDb.containerEnvironment :=
       {[ "DB_TLS_CLIENT_CERT_URI" := secretArn cert_secret;
          "DB_TLS_CLIENT_CERT_PASSWORD_URI" := secretArn passphrase_secret ]};
     MongoDb.databaseConstruct := Some 5 |}.

Definition linux_host : IHost := {| host_ref := 20; osType := LINUX; host_stack := 0 |}.
Definition other_linux_host : IHost := {| host_ref := 21; osType := LINUX; host_stack := 0 |}.
Definition windows_host : IHost := {| host_ref := 22; osType := WINDOWS; host_stack := 0 |}.

(** The application after the cluster and the MongoDB instance were
    provisioned inline, with the given engine version and the given name of
    the first instance of the cluster. *)
Definition provisioned (version instance_name : string) : World :=
  {| children := {[ (1, "Resource") := 2; (1, instance_name) := 3 ]};
     defaultChild := {[ 1 := 2 ]};
     classOf := {[ 1 := DatabaseCluster; 2 := CfnDBCluster; 3 := CfnDBInstance;
                   4 := MongoDbInstance; 5 := Volume ]};
     engineVersion := {[ 2 := version ]};
     vpcSecurityGroupIds := ∅;
     mongoDataVolume := {[ 4 := 5 ]};
     dependencies := ∅;
     annotations := [];
     userData := ∅;
     secretGrants := [];
     next_ref := 30 |}.

(** The application when the cluster and the MongoDB were imported: the
    objects 1 and 4 have no children, no default child and are not instances
    of the constructs. *)
Definition imported : World :=
  {| children := ∅; defaultChild := ∅; classOf := ∅; engineVersion := ∅;
     vpcSecurityGroupIds := ∅; mongoDataVolume := ∅; dependencies := ∅;
     annotations := []; userData := ∅; secretGrants := []; next_ref := 30 |}.

Definition security_groups : list ISecurityGroup :=
  [ {| sg_ref := 40; securityGroupId := "sg-0a1"; sg_node_id := "RepositorySG" |};
    {| sg_ref := 41; securityGroupId := "sg-0b2"; sg_node_id := "WorkerSG" |} ].

(** The application when the [CfnDBCluster] of the cluster has no engine
    version, and a Linux host of a second stack (object 9). *)
Definition unversioned : World :=
  {| children := {[ (1, "Resource") := 2; (1, "Instance1") := 3 ]};
     defaultChild := {[ 1 := 2 ]};
     classOf := {[ 1 := DatabaseCluster; 2 := CfnDBCluster; 3 := CfnDBInstance ]};
     engineVersion := ∅;
     vpcSecurityGroupIds := ∅;
     mongoDataVolume := ∅;
     dependencies := ∅;
     annotations := [];
     userData := ∅;
     secretGrants := [];
     next_ref := 30 |}.

Definition remote_linux_host : IHost := {| host_ref := 23; osType := LINUX; host_stack := 9 |}.

(** * Properties *)

(** ** The definitions on small inputs *)

Example uniqueId_LINUX :
  MongoDb.uniqueId LINUX = "GetSecretToFile0e8125dd2ab2c48618ee4998c26b30ee0".
Proof. reflexivity. Qed.

Example uniqueId_WINDOWS :
  MongoDb.uniqueId WINDOWS = "GetSecretToFile1e8125dd2ab2c48618ee4998c26b30ee0".
Proof. reflexivity. Qed.

Example join_ids : join ", " ["RepositorySG"; "WorkerSG"; "DbSG"] = "RepositorySG, WorkerSG, DbSG".
Proof. reflexivity. Qed.

Example startsWith_5_0 : startsWith "5.0.0" "5.0" = true ∧ startsWith "4.2.0" "4.0" = false.
Proof. split; reflexivity. Qed.

Example extracted_variable_lines :
  extracted_variable "DB_USERNAME=`printenv SECRET_STRING | getJsonVal 'username'`"
    = Some "DB_USERNAME" ∧
  extracted_variable "export DB_CERT_PASSWORD=$(aws secretsmanager get-secret-value)"
    = Some "DB_CERT_PASSWORD" ∧
  extracted_variable "SET_X_IS_SET=$-" = None ∧
  extracted_variable "unset DB_USERNAME" = None ∧
  extracted_variable restore_x_line = None ∧
  extracted_variable getJsonVal_line = None.
Proof. repeat split; reflexivity. Qed.

Example array_flags_small :
  array_flags "ARGS=( [--a]=1 [--b]=two [--c]=$THREE )" = ["--a"; "--b"; "--c"].
Proof. reflexivity. Qed.

Example addChildDependency_provisioned :
  DocDB.addChildDependency docdb_connection 6 (provisioned "5.0.0" "Instance1")
  = (Returned tt,
     with_dependencies (fun _ => {[ (6, 3) ]} ∪ ∅) (provisioned "5.0.0" "Instance1")).
Proof. reflexivity. Qed.

Example isCompatibleDocDBVersion_4_2 :
  (DocDB.isCompatibleDocDBVersion docdb_options (provisioned "4.2.0" "Instance1")).1
  = Returned false.
Proof. reflexivity. Qed.

(** ** Running computations *)

Ltac unfold_m :=
  unfold throws, returns, final, generate, invoke,
    DatabaseConnection.addInstallerDBArgs, DatabaseConnection.addConnectionDBArgs,
    DatabaseConnection.grantRead, DatabaseConnection.forDocDB,
    DatabaseConnection.forMongoDbInstance,
    DocDB.addInstallerDBArgs, DocDB.addConnectionDBArgs, DocDB.grantRead,
    DocDB.addChildDependency, DocDB.addSecurityGroup, DocDB.attachSecurityGroupIds,
    DocDB.new, DocDB.isCompatibleDocDBVersion,
    MongoDb.addInstallerDBArgs, MongoDb.addConnectionDBArgs, MongoDb.grantRead,
    MongoDb.downloadCertificate, MongoDb.new,
    ScriptAsset_fromPathConvention, ScriptAsset_executeOn, secret_grantRead,
    tryFindChild, getDefaultChild, instanceof, addDependency, addError, addWarning,
    addCommands, throw, gets, modify, mbind, M_bind, mret, M_ret in *.

Lemma bind_run {A B} (m : M A) (k : A → M B) (w : World) :
  (m ≫= k) w =
  match m w with
  | (Returned a, w') => k a w'
  | (Thrown e, w') => (Thrown e, w')
  end.
Proof. reflexivity. Qed.

Lemma startsWith_spec (s p : string) :
  startsWith s p = true ↔ ∃ rest, s = p +:+ rest.
Proof.
  unfold startsWith. revert s. induction p as [|a p IH]; intros s; simpl.
  - split; [intros _; by exists s | by destruct s].
  - destruct s as [|b s]; simpl.
    + split; [done | by intros [rest ?]].
    + destruct (ascii_dec a b) as [->|Hne].
      * rewrite IH. split.
        -- intros [rest ->]. by exists rest.
        -- intros [rest Heq]. exists rest. by injection Heq.
      * split; [done|]. intros [rest Heq]. injection Heq as Hab _. congruence.
Qed.

(** ** C1: the host-kind guard of the script-generation operations *)

(** C1. For both variants and both script-generation operations
    ([addInstallerDBArgs], [addConnectionDBArgs]), the call throws exactly
    when the host's operating system is not Linux, and a call that throws
    leaves the store as it was: no command has been added to the user data of
    the host (nor of any other). *)
Theorem script_generation_throws_iff_not_linux
    (op : ScriptOperation) (self : DatabaseConnection.DatabaseConnection)
    (host : IHost) (w : World) :
  (throws (generate op self host) w ↔ osType host ≠ LINUX) ∧
  (throws (generate op self host) w →
   final (generate op self host) w = w ∧
   commandsOf (final (generate op self host) w) (host_ref host)
     = commandsOf w (host_ref host)).
Proof.
  assert (Hcases :
    (osType host ≠ LINUX ∧ throws (generate op self host) w
       ∧ final (generate op self host) w = w)
    ∨ (osType host = LINUX ∧ returns (generate op self host) w)).
  { destruct (decide (osType host = LINUX)) as [Hos|Hos]; [right|left].
    - split; [done|]. destruct op, self; unfold_m;
        rewrite bool_decide_eq_false_2 by (intros ?; done);
        repeat (simpl; try destruct (children w !! _)); by eexists.
    - split; [done|]. destruct op, self; unfold_m;
        rewrite bool_decide_eq_true_2 by done; simpl; split; by eauto. }
  destruct Hcases as [(Hos & Hthrow & Hfinal)|(Hos & [a Hret])].
  - split; [done|]. intros _. split; [done|]. by rewrite Hfinal.
  - split.
    + split; [|done]. intros [e He]. rewrite Hret in He. discriminate.
    + intros [e He]. rewrite Hret in He. discriminate.
Qed.

(** ** C2: the engine version check of the DocumentDB connection *)

Lemma isCompatibleDocDBVersion_run (props : DocDB.DocDBConnectionOptions) (w : World) :
  DocDB.isCompatibleDocDBVersion props w =
  (Returned
     match defaultChild w !! cluster_ref (DocDB.database props) with
     | Some cluster =>
         match engineVersion w !! cluster with
         | Some v => startsWith v "3.6" || startsWith v "4.0" || startsWith v "5.0"
         | None => false
         end
     | None => true
     end, w).
Proof.
  unfold_m. simpl. destruct (defaultChild w !! _) as [cluster|]; [|done].
  simpl. destruct (engineVersion w !! cluster) as [v|]; [|done].
  simpl. by destruct (startsWith v "3.6"), (startsWith v "4.0"), (startsWith v "5.0").
Qed.

Lemma DocDB_new_run (props : DocDB.DocDBConnectionOptions) (w : World) :
  ∃ c compatible,
    DocDB.isCompatibleDocDBVersion props w = (Returned compatible, w) ∧
    DocDB.new props w =
      (Returned c,
       if compatible then w
       else with_annotations (fun l => l ++
              [ {| ann_scope := cluster_ref (DocDB.database props); ann_level := ERROR;
                   ann_message := "engineVersion must be one of 3.6.0, 4.0.0 or 5.0.0 to be compatible with Deadline" |} ]) w) ∧
    DocDB.props c = props ∧
    DocDB.databaseConstruct c =
      if bool_decide (classOf w !! cluster_ref (DocDB.database props) = Some DatabaseCluster)
      then Some (cluster_ref (DocDB.database props)) else None.
Proof.
  pose proof (isCompatibleDocDBVersion_run props w) as Hc.
  unfold DocDB.new. rewrite bind_run, Hc.
  match type of Hc with _ = (Returned ?b, _) => destruct b eqn:Hb end;
    simpl; unfold_m; simpl; eexists _, _; (split; [reflexivity|]);
    (split; [reflexivity|]); split; reflexivity.
Qed.

(** C2. Constructing the DocumentDB connection adds no diagnostic when the
    engine version of the cluster's default child begins with 3.6, 4.0 or
    5.0; adds exactly one diagnostic, on the database, for any other version
    string; and adds none when the cluster has no default child (it was
    imported, so the version cannot be read).  The construction always
    returns. *)
Theorem DocDB_construction_diagnostics
    (options : DocDB.DocDBConnectionOptions) (w : World) :
  let db := cluster_ref (DocDB.database options) in
  let w' := final (DatabaseConnection.forDocDB options) w in
  returns (DatabaseConnection.forDocDB options) w ∧
  (∀ cluster v prefix rest,
     defaultChild w !! db = Some cluster → engineVersion w !! cluster = Some v →
     prefix ∈ ["3.6"; "4.0"; "5.0"] → v = prefix +:+ rest →
     w' = w) ∧
  (∀ cluster v,
     defaultChild w !! db = Some cluster → engineVersion w !! cluster = Some v →
     (∀ prefix rest, prefix ∈ ["3.6"; "4.0"; "5.0"] → v ≠ prefix +:+ rest) →
     ∃ msg, w' = with_annotations (fun l => l ++
              [ {| ann_scope := db; ann_level := ERROR; ann_message := msg |} ]) w
            ∧ annotations w' = annotations w ++
              [ {| ann_scope := db; ann_level := ERROR; ann_message := msg |} ]) ∧
  (defaultChild w !! db = None → w' = w).
Proof.
  intros db w'.
  destruct (DocDB_new_run options w) as (c & compatible & Hc & Hnew & _ & _).
  assert (Hfor : DatabaseConnection.forDocDB options w
                 = (Returned (DatabaseConnection.DocDBDatabaseConnection c),
                    (DocDB.new options w).2)).
  { unfold DatabaseConnection.forDocDB. rewrite bind_run, Hnew. reflexivity. }
  assert (Hw' : w' = (DocDB.new options w).2) by (subst w'; unfold final; by rewrite Hfor).
  rewrite Hnew in Hw'. simpl in Hw'.
  rewrite isCompatibleDocDBVersion_run in Hc. injection Hc as Hc.
  fold db in Hc.
  split; [by eexists; rewrite Hfor|].
  split; [|split].
  - intros cluster v prefix rest Hdc Hev Hin ->.
    rewrite Hdc, Hev in Hc.
    assert (compatible = true) as ->; [|done].
    rewrite <- Hc.
    assert (startsWith (prefix +:+ rest) prefix = true) as Hp
      by (apply startsWith_spec; by exists rest).
    set_unfold in Hin. destruct Hin as [->|[->|[->|[]]]]; rewrite Hp;
      by repeat rewrite orb_true_r.
  - intros cluster v Hdc Hev Hno.
    rewrite Hdc, Hev in Hc.
    assert (compatible = false) as ->.
    { rewrite <- Hc. apply orb_false_iff. split; [apply orb_false_iff; split|];
        apply not_true_is_false; rewrite startsWith_spec; intros [rest ->];
        (eapply Hno; [|reflexivity]); set_solver. }
    eexists. split; [exact Hw'|]. by rewrite Hw'.
  - intros Hdc. rewrite Hdc in Hc. by subst compatible.
Qed.

(** ** C3, C4: the dependency on the first instance of the DocumentDB cluster *)

Lemma DocDB_addChildDependency_found
    (self : DocDB.DocDBDatabaseConnection) (child instance : ref) (w : World) :
  children w !! (cluster_ref (DocDB.database (DocDB.props self)), "Instance1") = Some instance →
  DocDB.addChildDependency self child w
  = (Returned tt, with_dependencies (fun d => {[ (child, instance) ]} ∪ d) w).
Proof. intros Hfound. unfold_m. by rewrite Hfound. Qed.

Lemma DocDB_addChildDependency_missing
    (self : DocDB.DocDBDatabaseConnection) (child : ref) (w : World) :
  children w !! (cluster_ref (DocDB.database (DocDB.props self)), "Instance1") = None →
  (DocDB.addChildDependency self child w).2 = w ∧
  (is_Some (defaultChild w !! cluster_ref (DocDB.database (DocDB.props self))) →
   throws (DocDB.addChildDependency self child) w) ∧
  (defaultChild w !! cluster_ref (DocDB.database (DocDB.props self)) = None →
   (DocDB.addChildDependency self child w).1 = Returned tt).
Proof.
  intros Hmissing. unfold_m. rewrite Hmissing. simpl.
  destruct (defaultChild w !! _) as [dc|] eqn:Hdc; simpl.
  - split; [done|]. split; [by eauto|done].
  - split; [done|]. split; [by intros [? ?]|done].
Qed.

(** C3. [addChildDependency(child)] of the DocumentDB connection: when the
    cluster's node has a child named Instance1, the call returns and adds the
    dependency of [child] on that instance; when it has none but the cluster
    has a default child (it was provisioned inline), the call throws; when it
    has none and the cluster has no default child (it was imported), the call
    returns and changes nothing, so no dependency is added. *)
Theorem DocDB_addChildDependency_cases
    (self : DocDB.DocDBDatabaseConnection) (child : ref) (w : World) :
  let db := cluster_ref (DocDB.database (DocDB.props self)) in
  let call := DocDB.addChildDependency self child in
  (∀ instance, children w !! (db, "Instance1") = Some instance →
     returns call w ∧
     dependencies (final call w) = {[ (child, instance) ]} ∪ dependencies w ∧
     final call w = with_dependencies (fun d => {[ (child, instance) ]} ∪ d) w) ∧
  (children w !! (db, "Instance1") = None → is_Some (defaultChild w !! db) →
     throws call w) ∧
  (children w !! (db, "Instance1") = None → defaultChild w !! db = None →
     returns call w ∧ final call w = w ∧
     dependencies (final call w) = dependencies w).
Proof.
  intros db call. split; [|split].
  - intros instance Hfound. unfold returns, final. subst call db.
    rewrite (DocDB_addChildDependency_found _ _ _ _ Hfound). eauto.
  - intros Hmissing Hdc.
    by apply (DocDB_addChildDependency_missing self child w Hmissing).
  - intros Hmissing Hdc.
    destruct (DocDB_addChildDependency_missing self child w Hmissing) as (Hw & _ & Hret).
    unfold returns, final. subst call db. rewrite Hw. split; [|done].
    eexists. by apply Hret.
Qed.

(** C4 (amended). For every DocumentDB backend whose node has a child named
    Instance1 and every two distinct consumers [c1] and [c2], calling
    [addChildDependency(c1)] and then [addChildDependency(c2)] returns and
    adds exactly the two dependencies (c1, instance) and (c2, instance): two
    distinct edges that end at the same instance of the cluster. *)
Theorem DocDB_two_consumers_depend_on_one_instance
    (self : DocDB.DocDBDatabaseConnection) (c1 c2 instance : ref) (w : World) :
  let db := cluster_ref (DocDB.database (DocDB.props self)) in
  let calls := DocDB.addChildDependency self c1;; DocDB.addChildDependency self c2 in
  c1 ≠ c2 →
  children w !! (db, "Instance1") = Some instance →
  returns calls w ∧
  dependencies (final calls w) = {[ (c1, instance); (c2, instance) ]} ∪ dependencies w ∧
  (c1, instance) ≠ (c2, instance) ∧
  (c1, instance) ∈ dependencies (final calls w) ∧
  (c2, instance) ∈ dependencies (final calls w).
Proof.
  intros db calls Hne Hfound.
  assert (Hrun : calls w = (Returned tt,
            with_dependencies (fun d => {[ (c2, instance) ]} ∪ d)
              (with_dependencies (fun d => {[ (c1, instance) ]} ∪ d) w))).
  { subst calls. rewrite bind_run.
    rewrite (DocDB_addChildDependency_found self c1 instance w Hfound).
    by rewrite DocDB_addChildDependency_found with (instance := instance). }
  unfold returns, final. rewrite Hrun. simpl.
  split; [by eexists|].
  split; [apply set_eq; intros e; rewrite !elem_of_union; tauto|].
  split; [congruence|].
  rewrite !elem_of_union, !elem_of_singleton. tauto.
Qed.

(** ** C6: security groups that the DocumentDB connection cannot attach *)

Lemma string_app_cons (x : ascii) (a b : string) :
  String x a +:+ b = String x (a +:+ b).
Proof. reflexivity. Qed.

Lemma string_app_nil_r (a : string) : a +:+ "" = a.
Proof. induction a as [|x a IH]; [done|]. by rewrite string_app_cons, IH. Qed.

Lemma string_app_assoc (a b c : string) : (a +:+ b) +:+ c = a +:+ (b +:+ c).
Proof. induction a as [|x a IH]; [done|]. by rewrite !string_app_cons, IH. Qed.

Lemma occurs_in_app_l (sub s t : string) : occurs_in sub s → occurs_in sub (s +:+ t).
Proof.
  intros (before & after & ->). exists before, (after +:+ t).
  by rewrite !string_app_assoc.
Qed.

Lemma occurs_in_app_r (sub s t : string) : occurs_in sub t → occurs_in sub (s +:+ t).
Proof.
  intros (before & after & ->). exists (s +:+ before), after.
  by rewrite !string_app_assoc.
Qed.

Lemma occurs_in_refl (s : string) : occurs_in s s.
Proof.
  exists "", "". by rewrite string_app_nil_r.
Qed.

Lemma occurs_in_join (sep x : string) (l : list string) :
  x ∈ l → occurs_in x (join sep l).
Proof.
  induction l as [|y l IH]; intros Hin; [by apply elem_of_nil in Hin|].
  apply elem_of_cons in Hin. destruct l as [|z l].
  - destruct Hin as [->|Hin]; [apply occurs_in_refl | by apply elem_of_nil in Hin].
  - change (join sep (y :: z :: l)) with (y +:+ sep +:+ join sep (z :: l)).
    destruct Hin as [->|Hin].
    + apply occurs_in_app_l, occurs_in_refl.
    + by apply occurs_in_app_r, occurs_in_app_r, IH.
Qed.

(** C6. When the database of the DocumentDB connection is not a
    [DatabaseCluster] (it was imported), or when the child Resource of the
    cluster is not a [CfnDBCluster], [addSecurityGroup(...groups)] returns
    and changes nothing of the store except that it adds exactly one warning,
    on the database; the text of the warning lists the [node.id] of every
    group of the call, joined by commas. *)
Theorem DocDB_addSecurityGroup_warns
    (self : DocDB.DocDBDatabaseConnection) (groups : list ISecurityGroup) (w : World) :
  let db := DocDB.database (DocDB.props self) in
  let call := DocDB.addSecurityGroup self groups in
  classOf w !! cluster_ref db ≠ Some DatabaseCluster
  ∨ children w !! (cluster_ref db, "Resource") ≫= (fun r => classOf w !! r)
    ≠ Some CfnDBCluster →
  returns call w ∧
  ∃ reason,
    let text :=
      ("Failed to add the following security groups to " +:+ cluster_node_id db
       +:+ ": " +:+ join ", " (sg_node_id <$> groups) +:+ ". ") +:+ reason in
    final call w = with_annotations (fun l => l ++
      [ {| ann_scope := cluster_ref db; ann_level := WARN; ann_message := text |} ]) w
    ∧ vpcSecurityGroupIds (final call w) = vpcSecurityGroupIds w
    ∧ ∀ g, g ∈ groups → occurs_in (sg_node_id g) text.
Proof.
  intros db call Hcase.
  assert (Hlisted : ∀ reason g, g ∈ groups →
    occurs_in (sg_node_id g)
      (("Failed to add the following security groups to " +:+ cluster_node_id db
        +:+ ": " +:+ join ", " (sg_node_id <$> groups) +:+ ". ") +:+ reason)).
  { intros reason g Hg. apply occurs_in_app_l.
    do 3 apply occurs_in_app_r. apply occurs_in_app_l, occurs_in_join.
    by apply list_elem_of_fmap_2. }
  subst call. unfold_m. simpl. fold db.
  destruct (decide (classOf w !! cluster_ref db = Some DatabaseCluster)) as [Hcl|Hcl].
  - destruct Hcase as [Hcase|Hcase]; [done|].
    rewrite bool_decide_eq_true_2 by done. simpl.
    rewrite bool_decide_eq_false_2 by done.
    destruct (children w !! (cluster_ref db, "Resource")); simpl;
      (split; [by eexists|]); eexists; (split; [reflexivity|]); split; auto.
  - rewrite bool_decide_eq_false_2 by done. simpl.
    split; [by eexists|]. eexists. split; [reflexivity|]. split; auto.
Qed.

(** ** C8: the secrets that [grantRead] lets the grantee read *)

(** C8. For every grantee, [grantRead] of the DocumentDB connection returns
    and makes exactly one grant, on the login secret; [grantRead] of the
    MongoDB connection returns and makes exactly two grants, the first on the
    secret of the client certificate and the second on the secret of its
    passphrase.  Nothing else of the store changes. *)
Theorem grantRead_grants (grantee : ref) (w : World) :
  (∀ c : DocDB.DocDBDatabaseConnection,
     let call := DatabaseConnection.grantRead (DatabaseConnection.DocDBDatabaseConnection c) grantee in
     returns call w ∧
     final call w = with_secretGrants (fun l => l ++
       [ (secret_ref (DocDB.login (DocDB.props c)), grantee) ]) w ∧
     secretGrants (final call w) = secretGrants w ++
       [ (secret_ref (DocDB.login (DocDB.props c)), grantee) ]) ∧
  (∀ c : MongoDb.MongoDbInstanceDatabaseConnection,
     let call := DatabaseConnection.grantRead
                   (DatabaseConnection.MongoDbInstanceDatabaseConnection c) grantee in
     returns call w ∧
     final call w = with_secretGrants (fun l => l ++
       [ (secret_ref (cert (MongoDb.clientCertificate (MongoDb.props c))), grantee);
         (secret_ref (passphrase (MongoDb.clientCertificate (MongoDb.props c))), grantee) ]) w ∧
     secretGrants (final call w) = secretGrants w ++
       [ (secret_ref (cert (MongoDb.clientCertificate (MongoDb.props c))), grantee);
         (secret_ref (passphrase (MongoDb.clientCertificate (MongoDb.props c))), grantee) ]).
Proof.
  split; intros c call; subst call; unfold_m; simpl.
  - split; [by eexists|]. done.
  - split; [by eexists|]. unfold with_secretGrants; simpl.
    rewrite <- !(assoc_L (++)). done.
Qed.

(** ** C10: the construct that a connection holds *)

Lemma MongoDb_new_run (options : MongoDb.MongoDbInstanceConnectionOptions) (w : World) :
  ∃ c,
    MongoDb.new options w = (Returned c, w) ∧
    MongoDb.props c = options ∧
    MongoDb.databaseConstruct c =
      if bool_decide (classOf w !! mongo_ref (MongoDb.database options) = Some MongoDbInstance)
      then
        if bool_decide (mongoDataVolume w !! mongo_ref (MongoDb.database options)
                          ≫= (fun r => classOf w !! r) = Some Volume)
        then mongoDataVolume w !! mongo_ref (MongoDb.database options)
        else None
      else None.
Proof.
  unfold_m. simpl.
  destruct (bool_decide (classOf w !! _ = Some MongoDbInstance)); simpl;
    eexists; (split; [reflexivity|]); split; reflexivity.
Qed.

(** C10. The construction always returns, and the [databaseConstruct] of the
    connection it returns is: for the DocumentDB connection, the database
    when the database is a [DatabaseCluster], and undefined otherwise; for the
    MongoDB connection, the [mongoDataVolume] of the database when the
    database is a [MongoDbInstance] whose data volume is a [Volume], and
    undefined otherwise. *)
Theorem databaseConstruct_of_construction (w : World) :
  (∀ options : DocDB.DocDBConnectionOptions,
     let db := cluster_ref (DocDB.database options) in
     ∃ c, (DatabaseConnection.forDocDB options w).1 = Returned c ∧
       (classOf w !! db = Some DatabaseCluster →
        DatabaseConnection.databaseConstruct c = Some db) ∧
       (classOf w !! db ≠ Some DatabaseCluster →
        DatabaseConnection.databaseConstruct c = None)) ∧
  (∀ options : MongoDb.MongoDbInstanceConnectionOptions,
     let db := mongo_ref (MongoDb.database options) in
     ∃ c, (DatabaseConnection.forMongoDbInstance options w).1 = Returned c ∧
       (∀ volume, classOf w !! db = Some MongoDbInstance →
          mongoDataVolume w !! db = Some volume → classOf w !! volume = Some Volume →
          DatabaseConnection.databaseConstruct c = Some volume) ∧
       (¬ (classOf w !! db = Some MongoDbInstance ∧
           ∃ volume, mongoDataVolume w !! db = Some volume
                     ∧ classOf w !! volume = Some Volume) →
        DatabaseConnection.databaseConstruct c = None)).
Proof.
  split; intros options db.
  - destruct (DocDB_new_run options w) as (c & compatible & _ & Hnew & _ & Hconstruct).
    exists (DatabaseConnection.DocDBDatabaseConnection c).
    split; [unfold DatabaseConnection.forDocDB; by rewrite bind_run, Hnew|].
    simpl. rewrite Hconstruct. fold db. split; intros Hclass.
    + by rewrite bool_decide_eq_true_2.
    + by rewrite bool_decide_eq_false_2.
  - destruct (MongoDb_new_run options w) as (c & Hnew & _ & Hconstruct).
    exists (DatabaseConnection.MongoDbInstanceDatabaseConnection c).
    split; [unfold DatabaseConnection.forMongoDbInstance; by rewrite bind_run, Hnew|].
    simpl. rewrite Hconstruct. fold db. split.
    + intros volume Hclass Hvol Hvclass.
      rewrite bool_decide_eq_true_2 by done.
      rewrite bool_decide_eq_true_2 by (by rewrite Hvol).
      done.
    + intros Hnot.
      destruct (decide (classOf w !! db = Some MongoDbInstance)) as [Hclass|Hclass];
        [|by rewrite bool_decide_eq_false_2].
      rewrite bool_decide_eq_true_2 by done.
      destruct (mongoDataVolume w !! db) as [volume|] eqn:Hvol; simpl;
        [|by destruct (bool_decide _)].
      rewrite bool_decide_eq_false_2; [done|].
      intros Hvclass. apply Hnot. eauto.
Qed.

(** ** C5: one certificate script for a stack *)

Lemma commandsOf_with_userData_insert (w : World) (h h' : ref) (l : list Command) :
  commandsOf (with_userData <[ h := l ]> w) h'
  = if decide (h = h') then l else commandsOf w h'.
Proof.
  unfold commandsOf, with_userData; simpl.
  destruct (decide (h = h')) as [->|Hne].
  - by rewrite lookup_insert_eq.
  - by rewrite lookup_insert_ne.
Qed.

Lemma addCommands_run (h : ref) (lines : list string) (w : World) :
  addCommands h lines w
  = (Returned tt, with_userData <[ h := commandsOf w h ++ (Shell <$> lines) ]> w).
Proof. reflexivity. Qed.

(** [downloadCertificate] returns; it constructs the script only when the
    stack has none under the identifier, and runs the one the stack has
    otherwise. *)
Lemma downloadCertificate_run
    (self : MongoDb.MongoDbInstanceDatabaseConnection) (host : IHost) (w : World) :
  ∃ w' script,
    MongoDb.downloadCertificate self host w = (Returned tt, w') ∧
    match children w !! (host_stack host, MongoDb.uniqueId (osType host)) with
    | Some found =>
        script = found ∧ next_ref w' = next_ref w ∧ children w' = children w
        ∧ classOf w' = classOf w
    | None =>
        script = next_ref w ∧ next_ref w' = S (next_ref w)
        ∧ children w' = <[ (host_stack host, MongoDb.uniqueId (osType host)) := script ]> (children w)
        ∧ classOf w' = <[ script := ScriptAsset ]> (classOf w)
    end ∧
    ∀ h, commandsOf w' h
         = commandsOf w h ++
           (if decide (host_ref host = h)
            then [ RunScript script
                     [ secretArn (cert (MongoDb.clientCertificate (MongoDb.props self)));
                       MongoDb.DB_CERT_LOCATION ] ]
            else []).
Proof.
  unfold_m. simpl.
  destruct (children w !! (host_stack host, MongoDb.uniqueId (osType host))) as [found|];
    simpl; eexists _, _; (split; [reflexivity|]); (split; [by repeat split|]);
    intros h; rewrite commandsOf_with_userData_insert;
    (destruct (decide (host_ref host = h)) as [->|Hne];
       [done | by rewrite (right_id_L [] (++))]).
Qed.

(** One call on a Linux host. *)
Lemma invoke_linux (i : Invocation) (w : World) :
  osType (inv_host i) = LINUX →
  ∃ w' script,
    invoke i w = (Returned tt, w') ∧
    match children w !! (host_stack (inv_host i), MongoDb.uniqueId LINUX) with
    | Some found =>
        script = found ∧ next_ref w' = next_ref w ∧ children w' = children w
        ∧ classOf w' = classOf w
    | None =>
        script = next_ref w ∧ next_ref w' = S (next_ref w)
        ∧ children w' = <[ (host_stack (inv_host i), MongoDb.uniqueId LINUX) := script ]> (children w)
        ∧ classOf w' = <[ script := ScriptAsset ]> (classOf w)
    end ∧
    ∀ h, commandsOf w' h
         = commandsOf w h ++ (if decide (host_ref (inv_host i) = h) then emitted script i else []).
Proof.
  intros Hos. destruct i as [c op host]; simpl in *.
  destruct (downloadCertificate_run c host w) as (w1 & script & Hrun & Htree & Hcmds).
  rewrite Hos in Htree.
  assert (Hinv : invoke {| inv_connection := c; inv_operation := op; inv_host := host |} w
    = (Returned tt,
       with_userData <[ host_ref host := commandsOf w1 (host_ref host) ++
         (Shell <$> script_of op (DatabaseConnection.MongoDbInstanceDatabaseConnection c)) ]> w1)).
  { unfold invoke, generate; simpl.
    destruct op; simpl;
      [unfold MongoDb.addInstallerDBArgs | unfold MongoDb.addConnectionDBArgs];
      rewrite bool_decide_eq_false_2 by (intros ?; done);
      by rewrite bind_run, Hrun, addCommands_run. }
  eexists _, script. split; [exact Hinv|]. split.
  - by destruct (children w !! _).
  - intros h. rewrite commandsOf_with_userData_insert, !Hcmds. unfold emitted; simpl.
    destruct (decide (host_ref host = h)) as [->|Hne].
    + rewrite decide_True by done. by rewrite <- (assoc_L (++)).
    + done.
Qed.

(** Calls on Linux hosts of a stack that already has the script: each runs
    that script, none constructs anything. *)
Lemma invoke_all_reuses (stack script : ref) (calls : list Invocation) (w : World) :
  Forall (fun i => osType (inv_host i) = LINUX ∧ host_stack (inv_host i) = stack) calls →
  children w !! (stack, MongoDb.uniqueId LINUX) = Some script →
  ∃ w', invoke_all calls w = (Returned tt, w') ∧
    next_ref w' = next_ref w ∧ children w' = children w ∧ classOf w' = classOf w ∧
    ∀ h, commandsOf w' h = commandsOf w h ++ emitted_on h script calls.
Proof.
  intros Hcalls. revert w.
  induction Hcalls as [|i calls [Hos Hstack] _ IH]; intros w Hfound.
  - exists w. repeat split; try done. intros h. unfold emitted_on; simpl.
    by rewrite (right_id_L [] (++)).
  - destruct (invoke_linux i w Hos) as (w1 & s & Hrun & Htree & Hcmds).
    rewrite Hstack, Hfound in Htree. destruct Htree as (-> & Hnext & Hchildren & Hclass).
    destruct (IH w1) as (w' & Hrest & Hnext' & Hchildren' & Hclass' & Hcmds');
      [by rewrite Hchildren|].
    exists w'. split; [|split; [|split; [|split]]].
    + simpl. by rewrite bind_run, Hrun.
    + congruence.
    + congruence.
    + congruence.
    + intros h. rewrite Hcmds', Hcmds. unfold emitted_on; simpl.
      by rewrite (assoc_L (++)).
Qed.

(** C5 (amended). In a stack that has no certificate script yet, any
    positive number of calls of the script-generation operations of MongoDB
    connections on Linux hosts of that stack returns and constructs exactly
    one script resource: one object is allocated, it is a [ScriptAsset]
    registered on the stack under the identifier that is derived from the
    operating system, and every call runs that same object before it writes
    its shell function. *)
Theorem MongoDb_certificate_script_constructed_once
    (stack : ref) (calls : list Invocation) (w : World) :
  let w' := final (invoke_all calls) w in
  let script := next_ref w in
  calls ≠ [] →
  Forall (fun i => osType (inv_host i) = LINUX ∧ host_stack (inv_host i) = stack) calls →
  children w !! (stack, MongoDb.uniqueId LINUX) = None →
  returns (invoke_all calls) w ∧
  next_ref w' = S (next_ref w) ∧
  children w' = <[ (stack, MongoDb.uniqueId LINUX) := script ]> (children w) ∧
  classOf w' = <[ script := ScriptAsset ]> (classOf w) ∧
  ∀ h, commandsOf w' h = commandsOf w h ++ emitted_on h script calls.
Proof.
  intros w' script Hne Hcalls Hfresh. subst w' script.
  destruct calls as [|i calls]; [done|].
  apply Forall_cons in Hcalls as [[Hos Hstack] Hcalls].
  destruct (invoke_linux i w Hos) as (w1 & s & Hrun & Htree & Hcmds).
  rewrite Hstack, Hfresh in Htree. destruct Htree as (-> & Hnext & Hchildren & Hclass).
  destruct (invoke_all_reuses stack (next_ref w) calls w1 Hcalls)
    as (w2 & Hrest & Hnext' & Hchildren' & Hclass' & Hcmds');
    [by rewrite Hchildren, lookup_insert_eq|].
  assert (Hall : invoke_all (i :: calls) w = (Returned tt, w2))
    by (simpl; by rewrite bind_run, Hrun).
  unfold returns, final. rewrite Hall. simpl.
  split; [by eexists|]. split; [congruence|]. split; [congruence|].
  split; [congruence|].
  intros h. rewrite Hcmds', Hcmds. unfold emitted_on; simpl.
  by rewrite (assoc_L (++)).
Qed.

(** ** The shell text that a call adds *)

Lemma shell_lines_app (a b : list Command) :
  shell_lines (a ++ b) = shell_lines a ++ shell_lines b.
Proof. apply omap_app. Qed.

Lemma shell_lines_Shell (lines : list string) : shell_lines (Shell <$> lines) = lines.
Proof. induction lines as [|l lines IH]; [done|]. cbn. by f_equal. Qed.

(** On a Linux host a script-generation operation returns, and the shell text
    it adds to the user data of the host is the script of the operation. *)
Lemma generate_linux (op : ScriptOperation) (self : DatabaseConnection.DatabaseConnection)
    (host : IHost) (w : World) :
  osType host = LINUX →
  returns (generate op self host) w ∧
  shell_lines (commandsOf (final (generate op self host) w) (host_ref host))
  = shell_lines (commandsOf w (host_ref host)) ++ script_of op self.
Proof.
  intros Hos. destruct self as [c|c].
  - assert (Hrun : generate op (DatabaseConnection.DocDBDatabaseConnection c) host w
      = (Returned tt, with_userData <[ host_ref host := commandsOf w (host_ref host) ++
           (Shell <$> script_of op (DatabaseConnection.DocDBDatabaseConnection c)) ]> w)).
    { destruct op; simpl;
        [unfold DocDB.addInstallerDBArgs | unfold DocDB.addConnectionDBArgs];
        rewrite bool_decide_eq_false_2 by (intros ?; done); apply addCommands_run. }
    unfold returns, final. rewrite Hrun. simpl. split; [by eexists|].
    rewrite commandsOf_with_userData_insert, decide_True by done.
    by rewrite shell_lines_app, shell_lines_Shell.
  - destruct (invoke_linux {| inv_connection := c; inv_operation := op; inv_host := host |} w Hos)
      as (w' & script & Hrun & _ & Hcmds).
    unfold invoke in Hrun; simpl in Hrun, Hcmds.
    unfold returns, final. rewrite Hrun. simpl. split; [by eexists|].
    rewrite Hcmds, decide_True by done. unfold emitted; simpl.
    rewrite shell_lines_app. f_equal. apply shell_lines_Shell.
Qed.

(** ** C7: the flags of the installer *)

Lemma DocDB_installer_db_args_line (props : DocDB.DocDBConnectionOptions) :
  DocDB.installer_db_args_line props
  = bash_array "INSTALLER_DB_ARGS"
      [ ("--dbuser", "$DB_USERNAME"); ("--dbpassword", "$DB_PASSWORD");
        ("--dbhost", hostname (clusterEndpoint (DocDB.database props)));
        ("--dbport", portAsString (clusterEndpoint (DocDB.database props)));
        ("--dbtype", "DocumentDB") ].
Proof.
  unfold DocDB.installer_db_args_line, bash_array, array_entry; cbn [fmap list_fmap join fst snd].
  rewrite !string_app_assoc. reflexivity.
Qed.

Lemma MongoDb_installer_db_args_line (props : MongoDb.MongoDbInstanceConnectionOptions) :
  MongoDb.installer_db_args_line props
  = bash_array "INSTALLER_DB_ARGS"
      [ ("--dbssl", "true"); ("--dbauth", "true"); ("--dbsslauth", "true");
        ("--dbhost", quoted (fullHostname (MongoDb.database props)));
        ("--dbport", pretty (port (MongoDb.database props)));
        ("--dbclientcert", quoted MongoDb.DB_CERT_LOCATION);
        ("--dbcertpass", "$CERT_PASSWORD") ].
Proof.
  unfold MongoDb.installer_db_args_line, bash_array, array_entry; cbn [fmap list_fmap join fst snd].
  rewrite !string_app_assoc. reflexivity.
Qed.

Lemma read_words_app (st : ReadState) (a b : string) :
  read_words st (a +:+ b)
  = let '(found, st1) := read_words st a in
    let '(rest, st2) := read_words st1 b in
    (found ++ rest, st2).
Proof.
  revert st. induction a as [|c a IH]; intros st.
  - change ("" +:+ b) with b. cbn. by destruct (read_words st b).
  - rewrite string_app_cons. cbn. destruct (read_char st c) as [st1 found].
    rewrite IH. destruct (read_words st1 a) as [found' st2].
    destruct (read_words st2 b) as [rest st3]. by rewrite (assoc_L (++)).
Qed.

Lemma read_words_plain (s : string) :
  plain_word s = true → read_words (Value false) s = ([], Value false).
Proof.
  induction s as [|c s IH]; [done|]. cbn.
  intros [[Hq Hsp]%andb_true_iff Hs]%andb_true_iff.
  apply negb_true_iff in Hq, Hsp. rewrite Hq, Hsp. cbn. by rewrite IH.
Qed.

Lemma read_words_quoted (s : string) :
  no_dquote s = true → read_words (Value true) s = ([], Value true).
Proof.
  induction s as [|c s IH]; [done|]. cbn.
  intros [Hq Hs]%andb_true_iff. apply negb_true_iff in Hq.
  rewrite Hq, andb_false_r. by rewrite IH.
Qed.

(** The decimal text of a number has neither quotes nor spaces. *)
Lemma plain_word_pretty_N_go (x : N) (s : string) :
  plain_word s = true → plain_word (pretty_N_go x s) = true.
Proof.
  revert s. induction (N.lt_wf_0 x) as [x _ IH]; intros s Hs.
  destruct (decide (x = 0)%N) as [->|Hx]; [by rewrite pretty_N_go_0|].
  rewrite pretty_N_go_step by lia. apply IH; [apply N.div_lt; lia|].
  cbn. rewrite Hs. unfold pretty_N_char. by repeat case_match.
Qed.

Lemma plain_word_pretty_N (x : N) : plain_word (pretty x) = true.
Proof.
  unfold pretty, pretty_N. case_decide; [done|]. by apply plain_word_pretty_N_go.
Qed.

Lemma DocDB_array_flags (props : DocDB.DocDBConnectionOptions) :
  plain_word (hostname (clusterEndpoint (DocDB.database props))) = true →
  plain_word (portAsString (clusterEndpoint (DocDB.database props))) = true →
  array_flags (DocDB.installer_db_args_line props)
  = ["--dbuser"; "--dbpassword"; "--dbhost"; "--dbport"; "--dbtype"].
Proof.
  intros Hhost Hport.
  set (a := "INSTALLER_DB_ARGS=( [" +:+ quoted "--dbuser" +:+ "]=$DB_USERNAME ["
            +:+ quoted "--dbpassword" +:+ "]=$DB_PASSWORD [" +:+ quoted "--dbhost" +:+ "]=").
  set (b := " [" +:+ quoted "--dbport" +:+ "]=").
  set (c := " [" +:+ quoted "--dbtype" +:+ "]=DocumentDB )").
  assert (Hline : DocDB.installer_db_args_line props
    = a +:+ hostname (clusterEndpoint (DocDB.database props))
      +:+ b +:+ portAsString (clusterEndpoint (DocDB.database props)) +:+ c).
  { unfold DocDB.installer_db_args_line. rewrite !string_app_assoc. reflexivity. }
  assert (Ha : read_words (Value false) a
               = (["--dbuser"; "--dbpassword"; "--dbhost"], Value false))
    by (vm_compute; reflexivity).
  assert (Hb : read_words (Value false) b = (["--dbport"], Value false))
    by (vm_compute; reflexivity).
  assert (Hc : read_words (Value false) c = (["--dbtype"], Value false))
    by (vm_compute; reflexivity).
  unfold array_flags. rewrite Hline, read_words_app, Ha. cbv beta iota.
  rewrite read_words_app, (read_words_plain _ Hhost). cbv beta iota.
  rewrite read_words_app, Hb. cbv beta iota.
  rewrite read_words_app, (read_words_plain _ Hport). cbv beta iota.
  rewrite Hc. reflexivity.
Qed.

Lemma MongoDb_array_flags (props : MongoDb.MongoDbInstanceConnectionOptions) :
  no_dquote (fullHostname (MongoDb.database props)) = true →
  array_flags (MongoDb.installer_db_args_line props)
  = ["--dbssl"; "--dbauth"; "--dbsslauth"; "--dbhost"; "--dbport";
     "--dbclientcert"; "--dbcertpass"].
Proof.
  intros Hhost.
  set (a := "INSTALLER_DB_ARGS=( [" +:+ quoted "--dbssl" +:+ "]=true ["
            +:+ quoted "--dbauth" +:+ "]=true [" +:+ quoted "--dbsslauth" +:+ "]=true ["
            +:+ quoted "--dbhost" +:+ "]=" +:+ dquote).
  set (b := dquote +:+ " [" +:+ quoted "--dbport" +:+ "]=").
  set (c := " [" +:+ quoted "--dbclientcert" +:+ "]=" +:+ quoted MongoDb.DB_CERT_LOCATION
            +:+ " [" +:+ quoted "--dbcertpass" +:+ "]=$CERT_PASSWORD )").
  assert (Hline : MongoDb.installer_db_args_line props
    = a +:+ fullHostname (MongoDb.database props)
      +:+ b +:+ pretty (port (MongoDb.database props)) +:+ c).
  { unfold MongoDb.installer_db_args_line, quoted. rewrite !string_app_assoc. reflexivity. }
  assert (Ha : read_words (Value false) a
               = (["--dbssl"; "--dbauth"; "--dbsslauth"; "--dbhost"], Value true))
    by (vm_compute; reflexivity).
  assert (Hb : read_words (Value true) b = (["--dbport"], Value false))
    by (vm_compute; reflexivity).
  assert (Hc : read_words (Value false) c
               = (["--dbclientcert"; "--dbcertpass"], Value false))
    by (vm_compute; reflexivity).
  unfold array_flags. rewrite Hline, read_words_app, Ha. cbv beta iota.
  rewrite read_words_app, (read_words_quoted _ Hhost). cbv beta iota.
  rewrite read_words_app, Hb. cbv beta iota.
  rewrite read_words_app, (read_words_plain _ (plain_word_pretty_N _)). cbv beta iota.
  rewrite Hc. reflexivity.
Qed.

(** C7. On a Linux host [addInstallerDBArgs] returns and adds its script to
    the shell text of the host; the one line of the script that assigns
    [INSTALLER_DB_ARGS] is the associative array with exactly the flags
    --dbuser, --dbpassword, --dbhost, --dbport, --dbtype=DocumentDB for the
    DocumentDB connection, and exactly the flags --dbssl=true, --dbauth=true,
    --dbsslauth=true, --dbhost, --dbport, --dbclientcert, --dbcertpass for
    the MongoDB connection, in this order.  Read back from the text, these
    are the subscripts of the array, when the host name and the port of the
    DocumentDB cluster have neither quotes nor spaces and the host name of
    the MongoDB has no quotes. *)
Theorem installer_db_args_flags (host : IHost) (w : World) :
  osType host = LINUX →
  (∀ c : DocDB.DocDBDatabaseConnection,
     let endpoint := clusterEndpoint (DocDB.database (DocDB.props c)) in
     let call := DatabaseConnection.addInstallerDBArgs
                   (DatabaseConnection.DocDBDatabaseConnection c) host in
     let script := DocDB.configure_database_installation_args (DocDB.props c) in
     let entries :=
       [ ("--dbuser", "$DB_USERNAME"); ("--dbpassword", "$DB_PASSWORD");
         ("--dbhost", hostname endpoint); ("--dbport", portAsString endpoint);
         ("--dbtype", "DocumentDB") ] in
     returns call w ∧
     shell_lines (commandsOf (final call w) (host_ref host))
       = shell_lines (commandsOf w (host_ref host)) ++ script ∧
     List.filter (fun line => startsWith line "INSTALLER_DB_ARGS=") script
       = [ bash_array "INSTALLER_DB_ARGS" entries ] ∧
     entries.*1 = ["--dbuser"; "--dbpassword"; "--dbhost"; "--dbport"; "--dbtype"] ∧
     (plain_word (hostname endpoint) = true → plain_word (portAsString endpoint) = true →
      array_flags (bash_array "INSTALLER_DB_ARGS" entries) = entries.*1)) ∧
  (∀ c : MongoDb.MongoDbInstanceDatabaseConnection,
     let db := MongoDb.database (MongoDb.props c) in
     let call := DatabaseConnection.addInstallerDBArgs
                   (DatabaseConnection.MongoDbInstanceDatabaseConnection c) host in
     let script := MongoDb.configure_database_installation_args (MongoDb.props c) in
     let entries :=
       [ ("--dbssl", "true"); ("--dbauth", "true"); ("--dbsslauth", "true");
         ("--dbhost", quoted (fullHostname db)); ("--dbport", pretty (port db));
         ("--dbclientcert", quoted MongoDb.DB_CERT_LOCATION);
         ("--dbcertpass", "$CERT_PASSWORD") ] in
     returns call w ∧
     shell_lines (commandsOf (final call w) (host_ref host))
       = shell_lines (commandsOf w (host_ref host)) ++ script ∧
     List.filter (fun line => startsWith line "INSTALLER_DB_ARGS=") script
       = [ bash_array "INSTALLER_DB_ARGS" entries ] ∧
     entries.*1 = ["--dbssl"; "--dbauth"; "--dbsslauth"; "--dbhost"; "--dbport";
                   "--dbclientcert"; "--dbcertpass"] ∧
     (no_dquote (fullHostname db) = true →
      array_flags (bash_array "INSTALLER_DB_ARGS" entries) = entries.*1)).
Proof.
  intros Hos. split; intros c.
  - intros endpoint call script entries.
    destruct (generate_linux InstallerDBArgs
                (DatabaseConnection.DocDBDatabaseConnection c) host w Hos) as [Hret Hlines].
    split; [exact Hret|]. split; [exact Hlines|].
    split; [|split; [reflexivity|]].
    + subst entries endpoint. rewrite <- DocDB_installer_db_args_line. reflexivity.
    + intros Hhost Hport. subst entries endpoint.
      rewrite <- DocDB_installer_db_args_line. by apply DocDB_array_flags.
  - intros db call script entries.
    destruct (generate_linux InstallerDBArgs
                (DatabaseConnection.MongoDbInstanceDatabaseConnection c) host w Hos)
      as [Hret Hlines].
    split; [exact Hret|]. split; [exact Hlines|].
    split; [|split; [reflexivity|]].
    + subst entries db. rewrite <- MongoDb_installer_db_args_line. reflexivity.
    + intros Hhost. subst entries db.
      rewrite <- MongoDb_installer_db_args_line. by apply MongoDb_array_flags.
Qed.

(** ** C9: unsetting the extracted variables, then restoring the tracing *)

Ltac occurs_at before after :=
  exists before, after;
  unfold DocDB.installer_db_args_line, MongoDb.installer_db_args_line;
  rewrite ?string_app_assoc; reflexivity.

Lemma DocDB_installer_unsets_after_use (props : DocDB.DocDBConnectionOptions) :
  ∃ body,
    function_body "configure_database_installation_args"
      (DocDB.configure_database_installation_args props) = Some body ∧
    unsets_after_use body ["DB_USERNAME"; "DB_PASSWORD"].
Proof.
  eexists. split; [vm_compute; reflexivity|].
  exists [ getJsonVal_line; "SET_X_IS_SET=$-"; "{ set +x; } 2>/dev/null";
           DocDB.secret_string_line props;
           "DB_USERNAME=`printenv SECRET_STRING | getJsonVal 'username'`";
           "DB_PASSWORD=`printenv SECRET_STRING | getJsonVal 'password'`";
           "unset SECRET_STRING" ], (DocDB.installer_db_args_line props).
  split; [reflexivity|]. intros v Hv.
  assert (Hfront : ∀ x, x ∈ ["DB_USERNAME"; "DB_PASSWORD"] →
            x ∈ ["SECRET_STRING"; "DB_USERNAME"; "DB_PASSWORD"])
    by (intros x Hx; apply elem_of_cons; right; exact Hx).
  split; [exact (Hfront v Hv)|]. left.
  apply elem_of_cons in Hv as [->|Hv]; [|apply list_elem_of_singleton in Hv as ->].
  - occurs_at ("INSTALLER_DB_ARGS=( [" +:+ quoted "--dbuser" +:+ "]=")
              (" [" +:+ quoted "--dbpassword" +:+ "]=$DB_PASSWORD ["
               +:+ quoted "--dbhost" +:+ "]="
               +:+ hostname (clusterEndpoint (DocDB.database props))
               +:+ " [" +:+ quoted "--dbport" +:+ "]="
               +:+ portAsString (clusterEndpoint (DocDB.database props))
               +:+ " [" +:+ quoted "--dbtype" +:+ "]=DocumentDB )").
  - occurs_at ("INSTALLER_DB_ARGS=( [" +:+ quoted "--dbuser" +:+ "]=$DB_USERNAME ["
               +:+ quoted "--dbpassword" +:+ "]=")
              (" [" +:+ quoted "--dbhost" +:+ "]="
               +:+ hostname (clusterEndpoint (DocDB.database props))
               +:+ " [" +:+ quoted "--dbport" +:+ "]="
               +:+ portAsString (clusterEndpoint (DocDB.database props))
               +:+ " [" +:+ quoted "--dbtype" +:+ "]=DocumentDB )").
Qed.

Lemma DocDB_connection_unsets_after_use (props : DocDB.DocDBConnectionOptions) :
  ∃ body,
    function_body "configure_deadline_database"
      (DocDB.configure_deadline_database props) = Some body ∧
    unsets_after_use body ["DB_USERNAME"; "DB_PASSWORD"].
Proof.
  eexists. split; [vm_compute; reflexivity|].
  exists [ getJsonVal_line; "SET_X_IS_SET=$-"; "{ set +x; } 2>/dev/null";
           DocDB.secret_string_line props;
           "DB_USERNAME=`printenv SECRET_STRING | getJsonVal 'username'`";
           "DB_PASSWORD=`printenv SECRET_STRING | getJsonVal 'password'`";
           "unset SECRET_STRING" ],
         ("sudo -u ec2-user " +:+ quoted "${deadlinecommand}"
          +:+ " -StoreDatabasecredentials " +:+ quoted "${DB_USERNAME}"
          +:+ " " +:+ quoted "${DB_PASSWORD}").
  split; [reflexivity|]. intros v Hv.
  assert (Hfront : ∀ x, x ∈ ["DB_USERNAME"; "DB_PASSWORD"] →
            x ∈ ["SECRET_STRING"; "DB_USERNAME"; "DB_PASSWORD"])
    by (intros x Hx; apply elem_of_cons; right; exact Hx).
  split; [exact (Hfront v Hv)|]. right.
  apply elem_of_cons in Hv as [->|Hv]; [|apply list_elem_of_singleton in Hv as ->].
  - occurs_at ("sudo -u ec2-user " +:+ quoted "${deadlinecommand}"
               +:+ " -StoreDatabasecredentials " +:+ dquote)
              (dquote +:+ " " +:+ quoted "${DB_PASSWORD}").
  - occurs_at ("sudo -u ec2-user " +:+ quoted "${deadlinecommand}"
               +:+ " -StoreDatabasecredentials " +:+ quoted "${DB_USERNAME}"
               +:+ " " +:+ dquote)
              dquote.
Qed.

Lemma MongoDb_installer_unsets_after_use (props : MongoDb.MongoDbInstanceConnectionOptions) :
  ∃ body,
    function_body "configure_database_installation_args"
      (MongoDb.configure_database_installation_args props) = Some body ∧
    unsets_after_use body ["CERT_PASSWORD"].
Proof.
  eexists. split; [vm_compute; reflexivity|].
  exists [ getJsonVal_line; "SET_X_IS_SET=$-"; "{ set +x; } 2>/dev/null";
           "CERT_PASSWORD=" +:+ MongoDb.cert_password_substitution
                                  (passphrase (MongoDb.clientCertificate props)) ],
         (MongoDb.installer_db_args_line props).
  split; [reflexivity|]. intros v Hv. apply list_elem_of_singleton in Hv as ->.
  split; [by apply list_elem_of_singleton|]. left.
  occurs_at ("INSTALLER_DB_ARGS=( [" +:+ quoted "--dbssl" +:+ "]=true ["
             +:+ quoted "--dbauth" +:+ "]=true [" +:+ quoted "--dbsslauth" +:+ "]=true ["
             +:+ quoted "--dbhost" +:+ "]=" +:+ quoted (fullHostname (MongoDb.database props))
             +:+ " [" +:+ quoted "--dbport" +:+ "]=" +:+ pretty (port (MongoDb.database props))
             +:+ " [" +:+ quoted "--dbclientcert" +:+ "]=" +:+ quoted MongoDb.DB_CERT_LOCATION
             +:+ " [" +:+ quoted "--dbcertpass" +:+ "]=")
            " )".
Qed.

(** C9 (amended). On a Linux host, the shell text that a script-generation
    operation adds is the script of the operation, and: for both operations
    of the DocumentDB connection and for [addInstallerDBArgs] of the MongoDB
    connection, the body of the shell function captures and switches off the
    tracing first, unsets every variable that it has assigned from a command
    substitution, and ends with the line that uses the extracted credentials
    (DB_USERNAME and DB_PASSWORD, or CERT_PASSWORD), the unsets of these
    credentials and then the command that restores the tracing; for
    [addConnectionDBArgs] of the MongoDB connection, the body captures and
    switches off the tracing first and ends with the command that restores
    it, but it unsets nothing: the extracted passphrase stays exported as
    DB_CERT_PASSWORD. *)
Theorem secure_script_discipline
    (op : ScriptOperation) (self : DatabaseConnection.DatabaseConnection)
    (host : IHost) (w : World) :
  let script := script_of op self in
  let disciplined credentials :=
    secure_script (function_name op) script = true ∧
    ∃ body, function_body (function_name op) script = Some body ∧
            unsets_after_use body credentials in
  osType host = LINUX →
  shell_lines (commandsOf (final (generate op self host) w) (host_ref host))
    = shell_lines (commandsOf w (host_ref host)) ++ script ∧
  match self, op with
  | DatabaseConnection.DocDBDatabaseConnection _, _ =>
      disciplined ["DB_USERNAME"; "DB_PASSWORD"]
  | DatabaseConnection.MongoDbInstanceDatabaseConnection _, InstallerDBArgs =>
      disciplined ["CERT_PASSWORD"]
  | DatabaseConnection.MongoDbInstanceDatabaseConnection _, ConnectionDBArgs =>
      ∃ body,
        function_body (function_name op) script = Some body ∧
        suppresses_tracing_first body = true ∧
        restores_tracing_last body = true ∧
        extracted_variables body = ["DB_CERT_PASSWORD"] ∧
        unset_variables body = []
  end.
Proof.
  intros script disciplined Hos. split; [by apply generate_linux|].
  subst script disciplined. destruct self as [c|c], op; cbn [script_of function_name].
  - split; [vm_compute; reflexivity|]. apply DocDB_installer_unsets_after_use.
  - split; [vm_compute; reflexivity|]. apply DocDB_connection_unsets_after_use.
  - split; [vm_compute; reflexivity|]. apply MongoDb_installer_unsets_after_use.
  - eexists. split; [vm_compute; reflexivity|]. repeat split; vm_compute; reflexivity.
Qed.

(** * The properties on the small application *)

Lemma script_generation_throws_iff_not_linux_witness :
  osType windows_host ≠ LINUX ∧
  throws (generate ConnectionDBArgs
            (DatabaseConnection.MongoDbInstanceDatabaseConnection mongo_connection)
            windows_host) imported ∧
  final (generate ConnectionDBArgs
           (DatabaseConnection.MongoDbInstanceDatabaseConnection mongo_connection)
           windows_host) imported = imported.
Proof.
  destruct (script_generation_throws_iff_not_linux ConnectionDBArgs
              (DatabaseConnection.MongoDbInstanceDatabaseConnection mongo_connection)
              windows_host imported) as [Hiff Hsame].
  assert (Hos : osType windows_host ≠ LINUX) by (simpl; discriminate).
  split; [exact Hos|]. split; [by apply Hiff|]. by apply Hsame, Hiff.
Defined.

Lemma DocDB_construction_diagnostics_witness :
  final (DatabaseConnection.forDocDB docdb_options) (provisioned "5.0.0" "Instance1")
    = provisioned "5.0.0" "Instance1" ∧
  (∃ msg,
     annotations (final (DatabaseConnection.forDocDB docdb_options)
                    (provisioned "4.2.0" "Instance1"))
     = [ {| ann_scope := 1; ann_level := ERROR; ann_message := msg |} ]) ∧
  final (DatabaseConnection.forDocDB docdb_options) imported = imported.
Proof.
  split; [|split].
  - destruct (DocDB_construction_diagnostics docdb_options (provisioned "5.0.0" "Instance1"))
      as (_ & Hsupported & _ & _).
    apply (Hsupported 2 "5.0.0" "5.0" ".0"); [reflexivity | reflexivity | | reflexivity].
    do 2 (apply elem_of_cons; right). apply elem_of_cons. by left.
  - destruct (DocDB_construction_diagnostics docdb_options (provisioned "4.2.0" "Instance1"))
      as (_ & _ & Hother & _).
    destruct (Hother 2 "4.2.0") as (msg & _ & Hmsg); [reflexivity | reflexivity | |].
    + intros prefix rest Hin Heq.
      apply elem_of_cons in Hin as [->|Hin]; [vm_compute in Heq; discriminate|].
      apply elem_of_cons in Hin as [->|Hin]; [vm_compute in Heq; discriminate|].
      apply list_elem_of_singleton in Hin as ->. vm_compute in Heq. discriminate.
    + exists msg. exact Hmsg.
  - destruct (DocDB_construction_diagnostics docdb_options imported) as (_ & _ & _ & Himported).
    apply Himported. reflexivity.
Defined.

Lemma DocDB_addChildDependency_cases_witness :
  dependencies (final (DocDB.addChildDependency docdb_connection 6)
                  (provisioned "5.0.0" "Instance1")) = {[ (6, 3) ]} ∪ ∅ ∧
  throws (DocDB.addChildDependency docdb_connection 6) (provisioned "5.0.0" "Instance") ∧
  final (DocDB.addChildDependency docdb_connection 6) imported = imported.
Proof.
  split; [|split].
  - destruct (DocDB_addChildDependency_cases docdb_connection 6
                (provisioned "5.0.0" "Instance1")) as (Hfound & _ & _).
    destruct (Hfound 3) as (_ & Hdeps & _); [reflexivity|]. exact Hdeps.
  - destruct (DocDB_addChildDependency_cases docdb_connection 6
                (provisioned "5.0.0" "Instance")) as (_ & Hrenamed & _).
    apply Hrenamed; [reflexivity|]. exists 2. reflexivity.
  - destruct (DocDB_addChildDependency_cases docdb_connection 6 imported)
      as (_ & _ & Himported).
    destruct Himported as (_ & Hsame & _); [reflexivity | reflexivity |]. exact Hsame.
Defined.

(** C4 does not hold for every cluster that was provisioned inline: when the
    cluster is a [DatabaseCluster] with a default child but its first
    instance is not named Instance1, the first call throws and no dependency
    is added. *)
Lemma DocDB_two_consumers_without_Instance1 :
  classOf (provisioned "5.0.0" "Instance") !! 1 = Some DatabaseCluster ∧
  defaultChild (provisioned "5.0.0" "Instance") !! 1 = Some 2 ∧
  throws (DocDB.addChildDependency docdb_connection 6;;
          DocDB.addChildDependency docdb_connection 7)
         (provisioned "5.0.0" "Instance") ∧
  dependencies (final (DocDB.addChildDependency docdb_connection 6;;
                       DocDB.addChildDependency docdb_connection 7)
                  (provisioned "5.0.0" "Instance")) = ∅.
Proof.
  split; [reflexivity|]. split; [reflexivity|].
  split; [eexists; vm_compute; reflexivity | reflexivity].
Qed.

Lemma DocDB_two_consumers_depend_on_one_instance_witness :
  6 ≠ 7 ∧
  children (provisioned "5.0.0" "Instance1") !! (1, "Instance1") = Some 3 ∧
  dependencies (final (DocDB.addChildDependency docdb_connection 6;;
                       DocDB.addChildDependency docdb_connection 7)
                  (provisioned "5.0.0" "Instance1"))
  = {[ (6, 3); (7, 3) ]} ∪ ∅.
Proof.
  assert (Hne : 6 ≠ 7) by lia.
  assert (Hfound : children (provisioned "5.0.0" "Instance1") !! (1, "Instance1") = Some 3)
    by reflexivity.
  split; [exact Hne|]. split; [exact Hfound|].
  destruct (DocDB_two_consumers_depend_on_one_instance docdb_connection 6 7 3
              (provisioned "5.0.0" "Instance1") Hne Hfound) as (_ & Hdeps & _).
  exact Hdeps.
Defined.

(** C5 does not hold for every operating-system kind: calls that target
    Windows hosts throw at the guard, before the script is looked up, so no
    script resource is constructed. *)
Lemma MongoDb_no_certificate_script_for_windows :
  osType windows_host = WINDOWS ∧
  throws (invoke_all
            [ {| inv_connection := mongo_connection; inv_operation := InstallerDBArgs;
                 inv_host := windows_host |};
              {| inv_connection := mongo_connection; inv_operation := ConnectionDBArgs;
                 inv_host := windows_host |} ]) imported ∧
  final (invoke_all
           [ {| inv_connection := mongo_connection; inv_operation := InstallerDBArgs;
                inv_host := windows_host |};
             {| inv_connection := mongo_connection; inv_operation := ConnectionDBArgs;
                inv_host := windows_host |} ]) imported = imported ∧
  children imported !! (host_stack windows_host, MongoDb.uniqueId WINDOWS) = None ∧
  next_ref imported = 30.
Proof.
  split; [reflexivity|]. split; [eexists; vm_compute; reflexivity|].
  split; [reflexivity|]. split; reflexivity.
Qed.

Lemma MongoDb_certificate_script_constructed_once_witness :
  let calls :=
    [ {| inv_connection := mongo_connection; inv_operation := InstallerDBArgs;
         inv_host := linux_host |};
      {| inv_connection := mongo_connection; inv_operation := ConnectionDBArgs;
         inv_host := linux_host |};
      {| inv_connection := mongo_connection; inv_operation := ConnectionDBArgs;
         inv_host := other_linux_host |} ] in
  children imported !! (0, MongoDb.uniqueId LINUX) = None ∧
  next_ref (final (invoke_all calls) imported) = 31 ∧
  children (final (invoke_all calls) imported)
    = <[ (0, MongoDb.uniqueId LINUX) := 30 ]> (children imported) ∧
  shell_lines (emitted_on 21 30 calls) = MongoDb.configure_deadline_database mongo_options.
Proof.
  intros calls.
  assert (Hne : calls ≠ []) by discriminate.
  assert (Hcalls : Forall (fun i => osType (inv_host i) = LINUX
                                    ∧ host_stack (inv_host i) = 0) calls)
    by (repeat constructor).
  assert (Hfresh : children imported !! (0, MongoDb.uniqueId LINUX) = None) by reflexivity.
  destruct (MongoDb_certificate_script_constructed_once 0 calls imported Hne Hcalls Hfresh)
    as (_ & Hnext & Hchildren & _ & _).
  split; [exact Hfresh|]. split; [exact Hnext|]. split; [exact Hchildren|].
  vm_compute. reflexivity.
Defined.

Lemma DocDB_addSecurityGroup_warns_witness :
  classOf imported !! cluster_ref (DocDB.database (DocDB.props docdb_connection))
    ≠ Some DatabaseCluster ∧
  returns (DocDB.addSecurityGroup docdb_connection security_groups) imported ∧
  ∃ text,
    annotations (final (DocDB.addSecurityGroup docdb_connection security_groups) imported)
      = [ {| ann_scope := 1; ann_level := WARN; ann_message := text |} ] ∧
    occurs_in "RepositorySG" text ∧ occurs_in "WorkerSG" text.
Proof.
  assert (Himported :
    classOf imported !! cluster_ref (DocDB.database (DocDB.props docdb_connection))
      ≠ Some DatabaseCluster) by (vm_compute; discriminate).
  split; [exact Himported|].
  destruct (DocDB_addSecurityGroup_warns docdb_connection security_groups imported
              (or_introl Himported)) as (Hret & reason & Hfinal & _ & Hlisted).
  split; [exact Hret|]. eexists. split; [by rewrite Hfinal|]. split.
  - apply (Hlisted {| sg_ref := 40; securityGroupId := "sg-0a1"; sg_node_id := "RepositorySG" |}).
    apply elem_of_cons. by left.
  - apply (Hlisted {| sg_ref := 41; securityGroupId := "sg-0b2"; sg_node_id := "WorkerSG" |}).
    apply elem_of_cons. right. apply elem_of_cons. by left.
Defined.

Lemma installer_db_args_flags_witness :
  osType linux_host = LINUX ∧
  array_flags (DocDB.installer_db_args_line docdb_options)
    = ["--dbuser"; "--dbpassword"; "--dbhost"; "--dbport"; "--dbtype"] ∧
  array_flags (MongoDb.installer_db_args_line mongo_options)
    = ["--dbssl"; "--dbauth"; "--dbsslauth"; "--dbhost"; "--dbport";
       "--dbclientcert"; "--dbcertpass"].
Proof.
  assert (Hos : osType linux_host = LINUX) by reflexivity.
  split; [exact Hos|].
  destruct (installer_db_args_flags linux_host imported Hos) as [Hdocdb Hmongo].
  split.
  - destruct (Hdocdb docdb_connection) as (_ & _ & _ & _ & Hflags).
    rewrite DocDB_installer_db_args_line. apply Hflags; reflexivity.
  - destruct (Hmongo mongo_connection) as (_ & _ & _ & _ & Hflags).
    rewrite MongoDb_installer_db_args_line. apply Hflags; reflexivity.
Defined.

(** C9 does not hold for every operation: the shell function that
    [addConnectionDBArgs] of the MongoDB connection writes extracts the
    passphrase into DB_CERT_PASSWORD and has no [unset] at all. *)
Lemma MongoDb_addConnectionDBArgs_keeps_the_passphrase :
  shell_lines (commandsOf
    (final (generate ConnectionDBArgs
              (DatabaseConnection.MongoDbInstanceDatabaseConnection mongo_connection)
              linux_host) imported) (host_ref linux_host))
    = MongoDb.configure_deadline_database mongo_options ∧
  extracted_variables (MongoDb.configure_deadline_database mongo_options)
    = ["DB_CERT_PASSWORD"] ∧
  unset_variables (MongoDb.configure_deadline_database mongo_options) = [] ∧
  secure_script "configure_deadline_database"
    (MongoDb.configure_deadline_database mongo_options) = false.
Proof. repeat split; vm_compute; reflexivity. Qed.

Lemma secure_script_discipline_witness :
  osType linux_host = LINUX ∧
  secure_script "configure_deadline_database"
    (DocDB.configure_deadline_database docdb_options) = true ∧
  secure_script "configure_database_installation_args"
    (MongoDb.configure_database_installation_args mongo_options) = true.
Proof.
  assert (Hos : osType linux_host = LINUX) by reflexivity.
  split; [exact Hos|]. split.
  - destruct (secure_script_discipline ConnectionDBArgs
                (DatabaseConnection.DocDBDatabaseConnection docdb_connection)
                linux_host imported Hos) as (_ & Hsecure & _).
    exact Hsecure.
  - destruct (secure_script_discipline InstallerDBArgs
                (DatabaseConnection.MongoDbInstanceDatabaseConnection mongo_connection)
                linux_host imported Hos) as (_ & Hsecure & _).
    exact Hsecure.
Defined.

Lemma databaseConstruct_of_construction_witness :
  (∃ c, (DatabaseConnection.forDocDB docdb_options (provisioned "5.0.0" "Instance1")).1
          = Returned c ∧ DatabaseConnection.databaseConstruct c = Some 1) ∧
  (∃ c, (DatabaseConnection.forMongoDbInstance mongo_options
           (provisioned "5.0.0" "Instance1")).1 = Returned c
        ∧ DatabaseConnection.databaseConstruct c = Some 5) ∧
  (∃ c, (DatabaseConnection.forMongoDbInstance mongo_options imported).1 = Returned c
        ∧ DatabaseConnection.databaseConstruct c = None).
Proof.
  split; [|split].
  - destruct (databaseConstruct_of_construction (provisioned "5.0.0" "Instance1"))
      as [Hdocdb _].
    destruct (Hdocdb docdb_options) as (c & Hrun & Hcluster & _).
    exists c. split; [exact Hrun|]. apply Hcluster. reflexivity.
  - destruct (databaseConstruct_of_construction (provisioned "5.0.0" "Instance1"))
      as [_ Hmongo].
    destruct (Hmongo mongo_options) as (c & Hrun & Hvolume & _).
    exists c. split; [exact Hrun|]. apply Hvolume; reflexivity.
  - destruct (databaseConstruct_of_construction imported) as [_ Hmongo].
    destruct (Hmongo mongo_options) as (c & Hrun & _ & Hnone).
    exists c. split; [exact Hrun|]. apply Hnone.
    intros [Hclass _]. vm_compute in Hclass. discriminate.
Defined.

(** * Further properties of the connections *)

(** ** Security groups that the DocumentDB connection attaches *)

Lemma DocDB_addSecurityGroup_attach_run
    (self : DocDB.DocDBDatabaseConnection) (groups : list ISecurityGroup)
    (cfn : ref) (w : World) :
  classOf w !! cluster_ref (DocDB.database (DocDB.props self)) = Some DatabaseCluster →
  children w !! (cluster_ref (DocDB.database (DocDB.props self)), "Resource") = Some cfn →
  classOf w !! cfn = Some CfnDBCluster →
  DocDB.addSecurityGroup self groups w
  = (Returned tt,
     with_vpcSecurityGroupIds
       <[ cfn := default [] (vpcSecurityGroupIds w !! cfn) ++ (securityGroupId <$> groups) ]> w).
Proof.
  intros Hcluster Hresource Hcfn. unfold_m. simpl.
  rewrite bool_decide_eq_true_2 by done. simpl. rewrite Hresource. simpl.
  rewrite bool_decide_eq_true_2 by done. simpl.
  by destruct (vpcSecurityGroupIds w !! cfn).
Qed.

(** X1. When the database is a [DatabaseCluster] whose child Resource is a
    [CfnDBCluster], [addSecurityGroup(...groups)] returns, adds no
    diagnostic, and appends the [securityGroupId] of every group, in the
    order of the call, to the [vpcSecurityGroupIds] of that [CfnDBCluster]
    (starting the list when the property was undefined); the identifiers
    that were there stay in front, and no other cluster is touched. *)
Theorem DocDB_addSecurityGroup_attaches
    (self : DocDB.DocDBDatabaseConnection) (groups : list ISecurityGroup)
    (cfn : ref) (w : World) :
  let db := cluster_ref (DocDB.database (DocDB.props self)) in
  let call := DocDB.addSecurityGroup self groups in
  classOf w !! db = Some DatabaseCluster →
  children w !! (db, "Resource") = Some cfn →
  classOf w !! cfn = Some CfnDBCluster →
  returns call w ∧
  annotations (final call w) = annotations w ∧
  vpcSecurityGroupIds (final call w) !! cfn
    = Some (default [] (vpcSecurityGroupIds w !! cfn) ++ (securityGroupId <$> groups)) ∧
  (∀ other, other ≠ cfn →
     vpcSecurityGroupIds (final call w) !! other = vpcSecurityGroupIds w !! other) ∧
  final call w
    = with_vpcSecurityGroupIds
        <[ cfn := default [] (vpcSecurityGroupIds w !! cfn) ++ (securityGroupId <$> groups) ]> w.
Proof.
  intros db call Hcluster Hresource Hcfn. subst call. unfold returns, final.
  rewrite (DocDB_addSecurityGroup_attach_run self groups cfn w Hcluster Hresource Hcfn).
  simpl. split; [by eexists|]. split; [done|]. split; [by rewrite lookup_insert_eq|].
  split; [|done]. intros other Hother. by rewrite lookup_insert_ne.
Qed.

(** X2. On such a cluster, attaching the groups [first] and then the groups
    [second] leaves the store exactly as attaching [first ++ second] in one
    call does. *)
Theorem DocDB_addSecurityGroup_twice
    (self : DocDB.DocDBDatabaseConnection) (first second : list ISecurityGroup)
    (cfn : ref) (w : World) :
  let db := cluster_ref (DocDB.database (DocDB.props self)) in
  classOf w !! db = Some DatabaseCluster →
  children w !! (db, "Resource") = Some cfn →
  classOf w !! cfn = Some CfnDBCluster →
  returns (DocDB.addSecurityGroup self first;; DocDB.addSecurityGroup self second) w ∧
  final (DocDB.addSecurityGroup self first;; DocDB.addSecurityGroup self second) w
  = final (DocDB.addSecurityGroup self (first ++ second)) w.
Proof.
  intros db Hcluster Hresource Hcfn. unfold returns, final.
  rewrite bind_run.
  rewrite (DocDB_addSecurityGroup_attach_run self first cfn w Hcluster Hresource Hcfn).
  rewrite (DocDB_addSecurityGroup_attach_run self (first ++ second) cfn w
             Hcluster Hresource Hcfn).
  rewrite DocDB_addSecurityGroup_attach_run with (cfn := cfn) by done.
  simpl. split; [by eexists|].
  unfold with_vpcSecurityGroupIds; simpl. f_equal.
  rewrite lookup_insert_eq, insert_insert_eq. simpl.
  by rewrite fmap_app, (assoc_L (++)).
Qed.

(** X3. On such a cluster, [addSecurityGroup()] with no group changes nothing
    when [vpcSecurityGroupIds] is defined, and defines it as the empty list,
    changing nothing else, when it is undefined. *)
Theorem DocDB_addSecurityGroup_no_groups
    (self : DocDB.DocDBDatabaseConnection) (cfn : ref) (w : World) :
  let db := cluster_ref (DocDB.database (DocDB.props self)) in
  let call := DocDB.addSecurityGroup self [] in
  classOf w !! db = Some DatabaseCluster →
  children w !! (db, "Resource") = Some cfn →
  classOf w !! cfn = Some CfnDBCluster →
  returns call w ∧
  (is_Some (vpcSecurityGroupIds w !! cfn) → final call w = w) ∧
  (vpcSecurityGroupIds w !! cfn = None →
   final call w = with_vpcSecurityGroupIds <[ cfn := [] ]> w ∧
   vpcSecurityGroupIds (final call w) !! cfn = Some []).
Proof.
  intros db call Hcluster Hresource Hcfn. subst call. unfold returns, final.
  rewrite (DocDB_addSecurityGroup_attach_run self [] cfn w Hcluster Hresource Hcfn).
  simpl. split; [by eexists|]. split.
  - intros [ids Hids]. rewrite Hids. simpl. rewrite (right_id_L [] (++)).
    destruct w; unfold with_vpcSecurityGroupIds; simpl in *. f_equal.
    by apply insert_id.
  - intros Hnone. rewrite Hnone. simpl. split; [done|]. by rewrite lookup_insert_eq.
Qed.

(** ** What the constructions read and write *)

(** X4. When the cluster has a default child whose [engineVersion] is
    undefined, constructing the DocumentDB connection returns and adds
    exactly one error, on the database: a version that cannot be read on a
    provisioned cluster counts as incompatible. *)
Theorem DocDB_construction_without_engineVersion
    (options : DocDB.DocDBConnectionOptions) (cluster : ref) (w : World) :
  let db := cluster_ref (DocDB.database options) in
  let w' := final (DatabaseConnection.forDocDB options) w in
  defaultChild w !! db = Some cluster →
  engineVersion w !! cluster = None →
  returns (DatabaseConnection.forDocDB options) w ∧
  annotations w' = annotations w ++
    [ {| ann_scope := db; ann_level := ERROR;
         ann_message := "engineVersion must be one of 3.6.0, 4.0.0 or 5.0.0 to be compatible with Deadline" |} ] ∧
  w' = with_annotations (fun _ => annotations w') w.
Proof.
  intros db w' Hdc Hversion.
  destruct (DocDB_new_run options w) as (c & compatible & Hc & Hnew & _ & _).
  rewrite isCompatibleDocDBVersion_run in Hc. fold db in Hc.
  rewrite Hdc, Hversion in Hc. injection Hc as <-.
  assert (Hfor : DatabaseConnection.forDocDB options w
                 = (Returned (DatabaseConnection.DocDBDatabaseConnection c),
                    (DocDB.new options w).2))
    by (unfold DatabaseConnection.forDocDB; by rewrite bind_run, Hnew).
  subst w'. unfold returns, final. rewrite Hfor, Hnew. simpl.
  split; [by eexists|]. split; reflexivity.
Qed.

(** X5. Constructing a connection never throws and keeps its options.  The
    DocumentDB construction leaves the store as it was or adds one error on
    the database and nothing else; the MongoDB construction leaves the store
    as it was: it checks no version and adds no diagnostic. *)
Theorem construction_writes_at_most_one_error (w : World) :
  (∀ options : DocDB.DocDBConnectionOptions,
     ∃ c w',
       DatabaseConnection.forDocDB options w
         = (Returned (DatabaseConnection.DocDBDatabaseConnection c), w') ∧
       DocDB.props c = options ∧
       (w' = w ∨
        ∃ msg, w' = with_annotations (fun l => l ++
                 [ {| ann_scope := cluster_ref (DocDB.database options);
                      ann_level := ERROR; ann_message := msg |} ]) w)) ∧
  (∀ options : MongoDb.MongoDbInstanceConnectionOptions,
     ∃ c,
       DatabaseConnection.forMongoDbInstance options w
         = (Returned (DatabaseConnection.MongoDbInstanceDatabaseConnection c), w) ∧
       MongoDb.props c = options).
Proof.
  split; intros options.
  - destruct (DocDB_new_run options w) as (c & compatible & _ & Hnew & Hprops & _).
    eexists c, _. split; [unfold DatabaseConnection.forDocDB; by rewrite bind_run, Hnew|].
    split; [done|]. destruct compatible; [by left | right; by eexists].
  - destruct (MongoDb_new_run options w) as (c & Hnew & Hprops & _).
    exists c. split; [|done].
    unfold DatabaseConnection.forMongoDbInstance. by rewrite bind_run, Hnew.
Qed.

(** X6. The [containerEnvironment] of a constructed connection: for the
    DocumentDB connection its only entry maps DB_CREDENTIALS_URI to the ARN of
    the login secret; for the MongoDB connection its only entries map
    DB_TLS_CLIENT_CERT_URI to the ARN of the certificate secret and
    DB_TLS_CLIENT_CERT_PASSWORD_URI to the ARN of the passphrase secret.  It
    does not depend on the store. *)
Theorem containerEnvironment_of_construction (w : World) :
  (∀ (options : DocDB.DocDBConnectionOptions) c,
     (DocDB.new options w).1 = Returned c →
     ∀ name value,
       DocDB.containerEnvironment c !! name = Some value ↔
       name = "DB_CREDENTIALS_URI" ∧ value = secretArn (DocDB.login options)) ∧
  (∀ (options : MongoDb.MongoDbInstanceConnectionOptions) c,
     (MongoDb.new options w).1 = Returned c →
     ∀ name value,
       MongoDb.containerEnvironment c !! name = Some value ↔
       (name = "DB_TLS_CLIENT_CERT_URI"
        ∧ value = secretArn (cert (MongoDb.clientCertificate options)))
       ∨ (name = "DB_TLS_CLIENT_CERT_PASSWORD_URI"
          ∧ value = secretArn (passphrase (MongoDb.clientCertificate options)))).
Proof.
  split; intros options c Hrun name value.
  - assert (Henv : DocDB.containerEnvironment c
                   = {[ "DB_CREDENTIALS_URI" := secretArn (DocDB.login options) ]}).
    { revert Hrun. unfold DocDB.new. rewrite bind_run, isCompatibleDocDBVersion_run.
      match goal with |- context [negb ?b] => destruct b end; unfold_m; simpl;
        by intros [= <-]. }
    rewrite Henv, lookup_singleton_Some. split; intros [<- <-]; done.
  - assert (Henv : MongoDb.containerEnvironment c
                   = {[ "DB_TLS_CLIENT_CERT_URI" :=
                          secretArn (cert (MongoDb.clientCertificate options));
                        "DB_TLS_CLIENT_CERT_PASSWORD_URI" :=
                          secretArn (passphrase (MongoDb.clientCertificate options)) ]}).
    { revert Hrun. unfold_m. simpl.
      destruct (bool_decide (classOf w !! _ = Some MongoDbInstance)); simpl;
        by intros [= <-]. }
    rewrite Henv, lookup_insert_Some, lookup_singleton_Some.
    split.
    + intros [[<- <-]|[_ [<- <-]]]; [by left | by right].
    + intros [[-> ->]|[-> ->]]; [by left | right]. split; [done | by split].
Qed.

(** ** What the script-generation operations add to the user data *)

Lemma generate_not_linux (op : ScriptOperation)
    (self : DatabaseConnection.DatabaseConnection) (host : IHost) (w : World) :
  osType host ≠ LINUX → ∃ e, generate op self host w = (Thrown e, w).
Proof.
  intros Hos. destruct op, self; simpl;
    [unfold DocDB.addInstallerDBArgs | unfold MongoDb.addInstallerDBArgs
     | unfold DocDB.addConnectionDBArgs | unfold MongoDb.addConnectionDBArgs];
    rewrite bool_decide_eq_true_2 by done; by eexists.
Qed.

Lemma generate_DocDB_linux (op : ScriptOperation) (c : DocDB.DocDBDatabaseConnection)
    (host : IHost) (w : World) :
  osType host = LINUX →
  generate op (DatabaseConnection.DocDBDatabaseConnection c) host w
  = (Returned tt,
     with_userData <[ host_ref host := commandsOf w (host_ref host) ++
       (Shell <$> script_of op (DatabaseConnection.DocDBDatabaseConnection c)) ]> w).
Proof.
  intros Hos. destruct op; simpl;
    [unfold DocDB.addInstallerDBArgs | unfold DocDB.addConnectionDBArgs];
    rewrite bool_decide_eq_false_2 by (intros ?; done); apply addCommands_run.
Qed.

(** X7. A script-generation operation only appends to the user data of its
    host: for every variant, operation, host and store, whether the call
    returns or throws, the commands that the host had stay in front, in their
    order, and the user data of every other host is what it was. *)
Theorem script_generation_only_appends
    (op : ScriptOperation) (self : DatabaseConnection.DatabaseConnection)
    (host : IHost) (w : World) :
  let w' := final (generate op self host) w in
  (∃ added, commandsOf w' (host_ref host) = commandsOf w (host_ref host) ++ added) ∧
  (∀ h, h ≠ host_ref host → commandsOf w' h = commandsOf w h).
Proof.
  intros w'. subst w'. unfold final.
  destruct (decide (osType host = LINUX)) as [Hos|Hos].
  - destruct self as [c|c].
    + rewrite (generate_DocDB_linux op c host w Hos). simpl. split.
      * eexists. by rewrite commandsOf_with_userData_insert, decide_True.
      * intros h Hh. by rewrite commandsOf_with_userData_insert, decide_False.
    + destruct (invoke_linux {| inv_connection := c; inv_operation := op; inv_host := host |}
                  w Hos) as (w1 & script & Hrun & _ & Hcmds).
      unfold invoke in Hrun; simpl in Hrun, Hcmds. rewrite Hrun. simpl. split.
      * eexists. by rewrite Hcmds, decide_True.
      * intros h Hh. rewrite Hcmds, decide_False by done. by rewrite (right_id_L [] (++)).
  - destruct (generate_not_linux op self host w Hos) as [e ->]. simpl. split.
    + exists []. by rewrite (right_id_L [] (++)).
    + done.
Qed.

(** X8. On a Linux host, an operation of the DocumentDB connection appends
    the lines of its shell function and nothing else; an operation of the
    MongoDB connection appends, in front of the lines of its shell function,
    exactly one run of the certificate script with the arguments (ARN of the
    certificate secret, /opt/Thinkbox/certs/mongo_client.pfx), and the script
    that is run is the one that the stack of the host then holds under the
    identifier. *)
Theorem script_generation_appends
    (op : ScriptOperation) (host : IHost) (w : World) :
  osType host = LINUX →
  (∀ c : DocDB.DocDBDatabaseConnection,
     let self := DatabaseConnection.DocDBDatabaseConnection c in
     commandsOf (final (generate op self host) w) (host_ref host)
     = commandsOf w (host_ref host) ++ (Shell <$> script_of op self)) ∧
  (∀ c : MongoDb.MongoDbInstanceDatabaseConnection,
     let self := DatabaseConnection.MongoDbInstanceDatabaseConnection c in
     ∃ script,
       children (final (generate op self host) w)
         !! (host_stack host, MongoDb.uniqueId LINUX) = Some script ∧
       commandsOf (final (generate op self host) w) (host_ref host)
       = commandsOf w (host_ref host) ++
         RunScript script
           [ secretArn (cert (MongoDb.clientCertificate (MongoDb.props c)));
             "/opt/Thinkbox/certs/mongo_client.pfx" ]
         :: (Shell <$> script_of op self)).
Proof.
  intros Hos. split; intros c self; subst self; unfold final.
  - rewrite (generate_DocDB_linux op c host w Hos). simpl.
    by rewrite commandsOf_with_userData_insert, decide_True.
  - destruct (invoke_linux {| inv_connection := c; inv_operation := op; inv_host := host |}
                w Hos) as (w1 & script & Hrun & Htree & Hcmds).
    unfold invoke in Hrun; simpl in Hrun, Hcmds, Htree. rewrite Hrun. simpl.
    exists script. split.
    + destruct (children w !! (host_stack host, MongoDb.uniqueId LINUX)) as [found|] eqn:Hfound.
      * destruct Htree as (-> & _ & -> & _). exact Hfound.
      * destruct Htree as (_ & _ & -> & _). by rewrite lookup_insert_eq.
    + rewrite Hcmds, decide_True by done. reflexivity.
Qed.


(** ** The certificate script across stacks and runs *)

(** X10. The certificate script is shared per stack only: two calls on Linux
    hosts of two different stacks, neither of which holds the script yet,
    construct two script resources, one registered on each stack, and each
    call runs the script of the stack of its own host. *)
Theorem MongoDb_certificate_script_per_stack (i1 i2 : Invocation) (w : World) :
  let w' := final (invoke_all [i1; i2]) w in
  let key1 := (host_stack (inv_host i1), MongoDb.uniqueId LINUX) in
  let key2 := (host_stack (inv_host i2), MongoDb.uniqueId LINUX) in
  osType (inv_host i1) = LINUX → osType (inv_host i2) = LINUX →
  host_stack (inv_host i1) ≠ host_stack (inv_host i2) →
  children w !! key1 = None → children w !! key2 = None →
  returns (invoke_all [i1; i2]) w ∧
  next_ref w' = S (S (next_ref w)) ∧
  children w' !! key1 = Some (next_ref w) ∧
  children w' !! key2 = Some (S (next_ref w)) ∧
  ∀ h, commandsOf w' h
       = commandsOf w h
         ++ (if decide (host_ref (inv_host i1) = h) then emitted (next_ref w) i1 else [])
         ++ (if decide (host_ref (inv_host i2) = h) then emitted (S (next_ref w)) i2 else []).
Proof.
  intros w' key1 key2 Hos1 Hos2 Hstacks Hfresh1 Hfresh2. subst w' key1 key2.
  destruct (invoke_linux i1 w Hos1) as (w1 & s1 & Hrun1 & Htree1 & Hcmds1).
  rewrite Hfresh1 in Htree1. destruct Htree1 as (-> & Hnext1 & Hchildren1 & _).
  destruct (invoke_linux i2 w1 Hos2) as (w2 & s2 & Hrun2 & Htree2 & Hcmds2).
  assert (Hfresh2' : children w1 !! (host_stack (inv_host i2), MongoDb.uniqueId LINUX) = None).
  { rewrite Hchildren1, lookup_insert_ne; [done|]. intros [= Heq]. by apply Hstacks. }
  rewrite Hfresh2' in Htree2. destruct Htree2 as (-> & Hnext2 & Hchildren2 & _).
  assert (Hall : invoke_all [i1; i2] w = (Returned tt, w2)).
  { simpl. rewrite bind_run, Hrun1, bind_run, Hrun2. reflexivity. }
  unfold returns, final. rewrite Hall. simpl.
  split; [by eexists|]. split; [congruence|]. split; [|split].
  - rewrite Hchildren2, lookup_insert_ne, Hchildren1, lookup_insert_eq; [done|].
    intros [= Heq]. by apply Hstacks.
  - by rewrite Hchildren2, lookup_insert_eq, Hnext1.
  - intros h. by rewrite Hcmds2, Hcmds1, Hnext1, (assoc_L (++)).
Qed.

(** X11. When the stack already holds a script resource under the
    identifier, any number of calls on Linux hosts of that stack, also none,
    returns without constructing anything: no object is allocated, the
    children of the stack and the classes stay as they were, and every call
    runs the resource that was found. *)
Theorem MongoDb_certificate_script_found
    (stack found : ref) (calls : list Invocation) (w : World) :
  let w' := final (invoke_all calls) w in
  Forall (fun i => osType (inv_host i) = LINUX ∧ host_stack (inv_host i) = stack) calls →
  children w !! (stack, MongoDb.uniqueId LINUX) = Some found →
  classOf w !! found = Some ScriptAsset →
  returns (invoke_all calls) w ∧
  next_ref w' = next_ref w ∧ children w' = children w ∧ classOf w' = classOf w ∧
  ∀ h, commandsOf w' h = commandsOf w h ++ emitted_on h found calls.
Proof.
  intros w' Hcalls Hfound _. subst w'.
  destruct (invoke_all_reuses stack found calls w Hcalls Hfound)
    as (w1 & Hrun & Hnext & Hchildren & Hclass & Hcmds).
  unfold returns, final. rewrite Hrun. simpl. split; [by eexists|]. done.
Qed.

(** ** When [addChildDependency] of the DocumentDB connection throws *)

(** X12. [addChildDependency(child)] of the DocumentDB connection throws
    exactly when the cluster's node has no child named Instance1 and has a
    default child; a call that throws leaves the store as it was, and a call
    that returns changes nothing but the dependencies. *)
Theorem DocDB_addChildDependency_throws_iff
    (self : DocDB.DocDBDatabaseConnection) (child : ref) (w : World) :
  let db := cluster_ref (DocDB.database (DocDB.props self)) in
  let call := DocDB.addChildDependency self child in
  (throws call w ↔
   children w !! (db, "Instance1") = None ∧ is_Some (defaultChild w !! db)) ∧
  (throws call w → final call w = w) ∧
  (returns call w →
   final call w = with_dependencies (fun _ => dependencies (final call w)) w).
Proof.
  intros db call. subst call.
  destruct (children w !! (db, "Instance1")) as [instance|] eqn:Hchild.
  - unfold throws, returns, final.
    rewrite (DocDB_addChildDependency_found self child instance w Hchild). simpl.
    split; [|split].
    + split; [by intros [e He] | by intros [? _]].
    + by intros [e He].
    + done.
  - destruct (DocDB_addChildDependency_missing self child w Hchild) as (Hsame & Hthrow & Hret).
    unfold final. rewrite Hsame. split; [|split].
    + split.
      * intros [e He]. split; [done|].
        destruct (defaultChild w !! db) as [dc|] eqn:Hdc; [by eexists|].
        rewrite Hret in He by done. discriminate.
      * intros [_ Hdc]. by apply Hthrow.
    + done.
    + intros _. by destruct w.
Qed.

(** ** A connection to an imported cluster *)

Lemma DocDB_addSecurityGroup_imported_run
    (self : DocDB.DocDBDatabaseConnection) (groups : list ISecurityGroup) (w : World) :
  classOf w !! cluster_ref (DocDB.database (DocDB.props self)) ≠ Some DatabaseCluster →
  ∃ text,
    DocDB.addSecurityGroup self groups w
    = (Returned tt,
       with_annotations (fun l => l ++
         [ {| ann_scope := cluster_ref (DocDB.database (DocDB.props self));
              ann_level := WARN; ann_message := text |} ]) w).
Proof.
  intros Himported. unfold_m. simpl.
  rewrite bool_decide_eq_false_2 by done. simpl. by eexists.
Qed.

(** X13. Constructing the DocumentDB connection over a database that is not a
    [DatabaseCluster] gives a connection whose [databaseConstruct] is
    undefined, and on that connection [addSecurityGroup], called right after
    with any groups, attaches nothing: it returns, leaves every
    [vpcSecurityGroupIds] as it was and adds one warning. *)
Theorem DocDB_imported_connection_attaches_nothing
    (options : DocDB.DocDBConnectionOptions) (groups : list ISecurityGroup) (w : World) :
  classOf w !! cluster_ref (DocDB.database options) ≠ Some DatabaseCluster →
  ∃ c w1,
    DatabaseConnection.forDocDB options w
      = (Returned (DatabaseConnection.DocDBDatabaseConnection c), w1) ∧
    DocDB.databaseConstruct c = None ∧
    returns (DocDB.addSecurityGroup c groups) w1 ∧
    vpcSecurityGroupIds (final (DocDB.addSecurityGroup c groups) w1)
      = vpcSecurityGroupIds w ∧
    ∃ text,
      annotations (final (DocDB.addSecurityGroup c groups) w1)
      = annotations w1 ++
        [ {| ann_scope := cluster_ref (DocDB.database options);
             ann_level := WARN; ann_message := text |} ].
Proof.
  intros Himported.
  destruct (DocDB_new_run options w) as (c & compatible & _ & Hnew & Hprops & Hconstruct).
  eexists c, _. split; [unfold DatabaseConnection.forDocDB; by rewrite bind_run, Hnew|].
  split; [by rewrite Hconstruct, bool_decide_eq_false_2|].
  set (w1 := if compatible then w else _).
  assert (Hclass : classOf w1 = classOf w) by (subst w1; by destruct compatible).
  assert (Hids : vpcSecurityGroupIds w1 = vpcSecurityGroupIds w)
    by (subst w1; by destruct compatible).
  destruct (DocDB_addSecurityGroup_imported_run c groups w1) as [text Hrun].
  { rewrite Hprops, Hclass. exact Himported. }
  unfold returns, final. rewrite Hrun. simpl. rewrite Hprops.
  split; [by eexists|]. split; [exact Hids|]. by exists text.
Qed.

(** * The further properties on the small application *)

Lemma DocDB_addSecurityGroup_attaches_witness :
  classOf (provisioned "5.0.0" "Instance1") !! 1 = Some DatabaseCluster ∧
  children (provisioned "5.0.0" "Instance1") !! (1, "Resource") = Some 2 ∧
  classOf (provisioned "5.0.0" "Instance1") !! 2 = Some CfnDBCluster ∧
  vpcSecurityGroupIds
    (final (DocDB.addSecurityGroup docdb_connection security_groups)
       (provisioned "5.0.0" "Instance1")) !! 2 = Some ["sg-0a1"; "sg-0b2"].
Proof.
  assert (H1 : classOf (provisioned "5.0.0" "Instance1") !! 1 = Some DatabaseCluster)
    by reflexivity.
  assert (H2 : children (provisioned "5.0.0" "Instance1") !! (1, "Resource") = Some 2)
    by reflexivity.
  assert (H3 : classOf (provisioned "5.0.0" "Instance1") !! 2 = Some CfnDBCluster)
    by reflexivity.
  split; [exact H1|]. split; [exact H2|]. split; [exact H3|].
  destruct (DocDB_addSecurityGroup_attaches docdb_connection security_groups 2
              (provisioned "5.0.0" "Instance1") H1 H2 H3) as (_ & _ & Hids & _).
  exact Hids.
Defined.

Lemma DocDB_addSecurityGroup_twice_witness :
  classOf (provisioned "5.0.0" "Instance1") !! 1 = Some DatabaseCluster ∧
  children (provisioned "5.0.0" "Instance1") !! (1, "Resource") = Some 2 ∧
  classOf (provisioned "5.0.0" "Instance1") !! 2 = Some CfnDBCluster ∧
  final (DocDB.addSecurityGroup docdb_connection (take 1 security_groups);;
         DocDB.addSecurityGroup docdb_connection (drop 1 security_groups))
    (provisioned "5.0.0" "Instance1")
  = final (DocDB.addSecurityGroup docdb_connection
             (take 1 security_groups ++ drop 1 security_groups))
      (provisioned "5.0.0" "Instance1").
Proof.
  assert (H1 : classOf (provisioned "5.0.0" "Instance1") !! 1 = Some DatabaseCluster)
    by reflexivity.
  assert (H2 : children (provisioned "5.0.0" "Instance1") !! (1, "Resource") = Some 2)
    by reflexivity.
  assert (H3 : classOf (provisioned "5.0.0" "Instance1") !! 2 = Some CfnDBCluster)
    by reflexivity.
  split; [exact H1|]. split; [exact H2|]. split; [exact H3|].
  destruct (DocDB_addSecurityGroup_twice docdb_connection (take 1 security_groups)
              (drop 1 security_groups) 2 (provisioned "5.0.0" "Instance1") H1 H2 H3)
    as (_ & Hsame).
  exact Hsame.
Defined.

Lemma DocDB_addSecurityGroup_no_groups_witness :
  classOf (provisioned "5.0.0" "Instance1") !! 1 = Some DatabaseCluster ∧
  children (provisioned "5.0.0" "Instance1") !! (1, "Resource") = Some 2 ∧
  classOf (provisioned "5.0.0" "Instance1") !! 2 = Some CfnDBCluster ∧
  vpcSecurityGroupIds (provisioned "5.0.0" "Instance1") !! 2 = None ∧
  vpcSecurityGroupIds
    (final (DocDB.addSecurityGroup docdb_connection []) (provisioned "5.0.0" "Instance1"))
    !! 2 = Some [].
Proof.
  assert (H1 : classOf (provisioned "5.0.0" "Instance1") !! 1 = Some DatabaseCluster)
    by reflexivity.
  assert (H2 : children (provisioned "5.0.0" "Instance1") !! (1, "Resource") = Some 2)
    by reflexivity.
  assert (H3 : classOf (provisioned "5.0.0" "Instance1") !! 2 = Some CfnDBCluster)
    by reflexivity.
  assert (H4 : vpcSecurityGroupIds (provisioned "5.0.0" "Instance1") !! 2 = None)
    by reflexivity.
  split; [exact H1|]. split; [exact H2|]. split; [exact H3|]. split; [exact H4|].
  destruct (DocDB_addSecurityGroup_no_groups docdb_connection 2
              (provisioned "5.0.0" "Instance1") H1 H2 H3) as (_ & _ & Hundefined).
  exact (proj2 (Hundefined H4)).
Defined.

Lemma DocDB_construction_without_engineVersion_witness :
  defaultChild unversioned !! 1 = Some 2 ∧
  engineVersion unversioned !! 2 = None ∧
  annotations (final (DatabaseConnection.forDocDB docdb_options) unversioned)
  = [ {| ann_scope := 1; ann_level := ERROR;
         ann_message := "engineVersion must be one of 3.6.0, 4.0.0 or 5.0.0 to be compatible with Deadline" |} ].
Proof.
  assert (H1 : defaultChild unversioned !! 1 = Some 2) by reflexivity.
  assert (H2 : engineVersion unversioned !! 2 = None) by reflexivity.
  split; [exact H1|]. split; [exact H2|].
  destruct (DocDB_construction_without_engineVersion docdb_options 2 unversioned H1 H2)
    as (_ & Hone & _).
  exact Hone.
Defined.

Lemma script_generation_appends_witness :
  osType linux_host = LINUX ∧
  commandsOf
    (final (generate ConnectionDBArgs
              (DatabaseConnection.MongoDbInstanceDatabaseConnection mongo_connection)
              linux_host) imported) (host_ref linux_host)
  = RunScript 30 [ secretArn cert_secret; "/opt/Thinkbox/certs/mongo_client.pfx" ]
    :: (Shell <$> MongoDb.configure_deadline_database mongo_options).
Proof.
  assert (Hos : osType linux_host = LINUX) by reflexivity.
  split; [exact Hos|].
  destruct (script_generation_appends ConnectionDBArgs linux_host imported Hos)
    as [_ Hmongo].
  destruct (Hmongo mongo_connection) as (script & Hchild & Hcmds).
  assert (Hscript : script = 30) by (vm_compute in Hchild; congruence).
  rewrite Hcmds, Hscript. reflexivity.
Defined.


Lemma MongoDb_certificate_script_per_stack_witness :
  let i1 := {| inv_connection := mongo_connection; inv_operation := InstallerDBArgs;
              inv_host := linux_host |} in
  let i2 := {| inv_connection := mongo_connection; inv_operation := InstallerDBArgs;
              inv_host := remote_linux_host |} in
  (osType linux_host = LINUX ∧ osType remote_linux_host = LINUX) ∧
  (children imported !! (0, MongoDb.uniqueId LINUX) = None
   ∧ children imported !! (9, MongoDb.uniqueId LINUX) = None) ∧
  next_ref (final (invoke_all [i1; i2]) imported) = 32 ∧
  children (final (invoke_all [i1; i2]) imported) !! (0, MongoDb.uniqueId LINUX) = Some 30 ∧
  children (final (invoke_all [i1; i2]) imported) !! (9, MongoDb.uniqueId LINUX) = Some 31.
Proof.
  intros i1 i2.
  assert (Hos1 : osType (inv_host i1) = LINUX) by reflexivity.
  assert (Hos2 : osType (inv_host i2) = LINUX) by reflexivity.
  assert (Hstacks : host_stack (inv_host i1) ≠ host_stack (inv_host i2))
    by (simpl; lia).
  assert (Hfresh1 : children imported !! (0, MongoDb.uniqueId LINUX) = None) by reflexivity.
  assert (Hfresh2 : children imported !! (9, MongoDb.uniqueId LINUX) = None) by reflexivity.
  split; [by split|]. split; [by split|].
  destruct (MongoDb_certificate_script_per_stack i1 i2 imported Hos1 Hos2 Hstacks
              Hfresh1 Hfresh2) as (_ & Hnext & Hchild1 & Hchild2 & _).
  split; [exact Hnext|]. split; [exact Hchild1 | exact Hchild2].
Defined.

Lemma MongoDb_certificate_script_found_witness :
  let w := final (invoke {| inv_connection := mongo_connection;
                            inv_operation := InstallerDBArgs;
                            inv_host := linux_host |}) imported in
  let calls := [ {| inv_connection := mongo_connection; inv_operation := ConnectionDBArgs;
                    inv_host := other_linux_host |} ] in
  children w !! (0, MongoDb.uniqueId LINUX) = Some 30 ∧
  classOf w !! 30 = Some ScriptAsset ∧
  next_ref (final (invoke_all calls) w) = 31 ∧
  commandsOf (final (invoke_all calls) w) 21 = emitted_on 21 30 calls.
Proof.
  intros w calls.
  assert (Hcalls : Forall (fun i => osType (inv_host i) = LINUX
                                    ∧ host_stack (inv_host i) = 0) calls)
    by (repeat constructor).
  assert (Hfound : children w !! (0, MongoDb.uniqueId LINUX) = Some 30) by reflexivity.
  assert (Hclass : classOf w !! 30 = Some ScriptAsset) by reflexivity.
  split; [exact Hfound|]. split; [exact Hclass|].
  destruct (MongoDb_certificate_script_found 0 30 calls w Hcalls Hfound Hclass)
    as (_ & Hnext & _ & _ & Hcmds).
  split; [exact Hnext|]. rewrite Hcmds. reflexivity.
Defined.

Lemma DocDB_imported_connection_attaches_nothing_witness :
  classOf imported !! cluster_ref (DocDB.database docdb_options) = None ∧
  ∃ c w1,
    DatabaseConnection.forDocDB docdb_options imported
      = (Returned (DatabaseConnection.DocDBDatabaseConnection c), w1) ∧
    DocDB.databaseConstruct c = None ∧
    vpcSecurityGroupIds (final (DocDB.addSecurityGroup c security_groups) w1) = ∅.
Proof.
  split; [reflexivity|].
  destruct (DocDB_imported_connection_attaches_nothing docdb_options security_groups imported)
    as (c & w1 & Hrun & Hconstruct & _ & Hids & _).
  { vm_compute. discriminate. }
  exists c, w1. split; [exact Hrun|]. split; [exact Hconstruct | exact Hids].
Defined.
